(** * The "various readers" TensorFlow notebook of DALI

    A shallow embedding of the code cells of
    [docs/examples/frameworks/tensorflow/tensorflow-various-readers.ipynb]:
    the path set-up, the index-file generation, the pipeline classes and the
    self-test loop.  The DALI operators, the TensorFlow session and the
    [tfrecord2idx] script are external: operators are kept as the class name
    and keyword arguments they are constructed with, the graph a pipeline
    defines as the term built by [define_graph], and what the session and the
    script do is taken as a parameter of the development. *)

From Stdlib Require Import ZArith QArith Qround String Ascii List Lia DecimalString.
From stdpp Require Import base gmap strings list.
Import ListNotations.

Set Warnings "-register-all".

Local Open Scope string_scope.
Local Open Scope list_scope.
Local Open Scope Z_scope.

(** ** Python values appearing as keyword arguments *)

Module Py.

Inductive pyval :=
| PStr (s : string)
| PInt (z : Z)
| PFloat (q : Q)
| PBool (b : bool)
| PConst (qualname : string)
| PTuple (items : list pyval)
| PList (items : list pyval)
| PDict (items : list (string * pyval))
| PCall (callee : string) (args : list pyval).

(** [d[key]] on a dict literal: the last binding of a key wins, here keys
    are distinct so the first match is the binding. *)
Fixpoint assoc {A} (key : string) (items : list (string * A)) : option A :=
  match items with
  | [] => None
  | (k, v) :: rest => if String.eqb k key then Some v else assoc key rest
  end.

Definition keys {A} (items : list (string * A)) : list string :=
  map fst items.

(** [s.startswith('/')] and [s.endswith('/')] *)
Definition startswith_sep (s : string) : bool :=
  match s with
  | String c _ => Ascii.eqb c "/"
  | EmptyString => false
  end.

Fixpoint endswith_sep (s : string) : bool :=
  match s with
  | EmptyString => false
  | String c EmptyString => Ascii.eqb c "/"
  | String _ rest => endswith_sep rest
  end.

(** One round of the loop of [posixpath.join]. *)
Definition join_step (path b : string) : string :=
  if startswith_sep b then b
  else if (String.eqb path "" || endswith_sep path)%bool then String.append path b
  else String.append path (String.append "/" b).

(** [os.path.join(a, *p)] *)
Definition os_path_join (a : string) (p : list string) : string :=
  fold_left join_step p a.

(** [range(n)] *)
Definition range (n : Z) : list Z :=
  map Z.of_nat (seq 0 (Z.to_nat n)).

(** ['%i' % d] *)
Definition format_int (d : Z) : string :=
  NilZero.string_of_int (Z.to_int d).

End Py.

(** ** numpy scalars and the element-wise operations of the label checks *)

Module Np.

(** An array element: a finite number, an infinity or a NaN (the last
    three only for a floating-point dtype). *)
Inductive scalar :=
| Fin (q : Q)
| PosInf
| NegInf
| NaN.

Definition array := list scalar.

(** [np.mod(x, 1)]: the remainder with the sign of the divisor, NaN when
    [x] is not finite.  The value is the exact one; the rounded result of a
    floating-point dtype is zero exactly when the exact one is. *)
Definition mod1 (x : scalar) : scalar :=
  match x with
  | Fin q => Fin (q - inject_Z (Qfloor q))
  | _ => NaN
  end.

(** [np.equal(x, z)], [x >= z] and [x <= z] against an integer [z]; any
    comparison with NaN is false. *)
Definition equal (x : scalar) (z : Z) : bool :=
  match x with
  | Fin q => Qeq_bool q (inject_Z z)
  | _ => false
  end.

Definition ge (x : scalar) (z : Z) : bool :=
  match x with
  | Fin q => Qle_bool (inject_Z z) q
  | PosInf => true
  | NegInf | NaN => false
  end.

Definition le (x : scalar) (z : Z) : bool :=
  match x with
  | Fin q => Qle_bool q (inject_Z z)
  | NegInf => true
  | PosInf | NaN => false
  end.

(** [.all()] of a boolean array *)
Definition all (bs : list bool) : bool := forallb (fun b => b) bs.

End Np.

(** ** Operators, pipeline objects and the graphs they define *)

Import Py.

(** An operator instance of [nvidia.dali.ops]: the class that was called and
    the keyword arguments of the call. *)
Record operator := Op {
  op_class : string;
  op_kwargs : list (string * pyval)
}.

(** The dataflow term built by calling operators inside [define_graph]. *)
Inductive selector :=
| Idx (i : nat)
| Key (k : string).

Inductive edge :=
| Apply (op : operator) (inputs : list edge) (kwargs : list (string * edge))
| Const (v : pyval)
| Item (outputs : edge) (sel : selector)
| Gpu (e : edge).

(** The four reader pipeline classes of the notebook. *)
Inductive pipe_kind :=
| MXNetReaderPipeline
| CaffeReadPipeline
| FileReadPipeline
| TFRecordPipeline.

(** [cls.__name__] *)
Definition __name__ (k : pipe_kind) : string :=
  match k with
  | MXNetReaderPipeline => "MXNetReaderPipeline"
  | CaffeReadPipeline => "CaffeReadPipeline"
  | FileReadPipeline => "FileReadPipeline"
  | TFRecordPipeline => "TFRecordPipeline"
  end.

(** The state [Pipeline.__init__] is given by [CommonPipeline.__init__]. *)
Record PipelineObj := {
  batch_size : Z;
  num_threads : Z;
  device_id : Z
}.

(** An instance of [CommonPipeline]: the base state and the five operators
    its [__init__] stores. *)
Record CommonPipelineObj := {
  base : PipelineObj;
  decode : operator;
  resize : operator;
  cmn : operator;
  uniform : operator;
  resize_rng : operator
}.

(** An instance of one of the four subclasses: the inherited part, the
    class and the reader stored in [self.input]. *)
Record ReaderPipelineObj := {
  common : CommonPipelineObj;
  kind : pipe_kind;
  input : operator
}.

(** The globals of the first code cell that depend on the environment. *)
Record globals := {
  test_data_root : string;
  db_folder : string;
  lmdb_folder : string;
  tfrecord : string
}.

(** The globals of the first code cell that are literals. *)
Definition image_dir : string := "../../data/images".
Definition tfrecord_idx : string := "idx_files/train.idx".
Definition tfrecord2idx_script : string := "tfrecord2idx".
Definition N : Z := 8.
Definition BATCH_SIZE : Z := 128.
Definition ITERATIONS : Z := 32.
Definition IMAGE_SIZE : Z := 3.

Definition mk_globals (root : string) : globals := {|
  test_data_root := root;
  db_folder := os_path_join root ["db"; "recordio/"];
  lmdb_folder := os_path_join root ["db"; "lmdb"];
  tfrecord := os_path_join root ["db"; "tfrecord"; "train"]
|}.

Definition Pipeline__init__ (batch_size num_threads device_id : Z) : PipelineObj :=
  {| batch_size := batch_size; num_threads := num_threads; device_id := device_id |}.

Definition CommonPipeline__init__ (batch_size num_threads device_id : Z)
  : CommonPipelineObj := {|
  base := Pipeline__init__ batch_size num_threads device_id;
  decode := Op "ImageDecoder"
              [("device", PStr "mixed"); ("output_type", PConst "types.RGB")];
  resize := Op "Resize"
              [("device", PStr "gpu"); ("interp_type", PConst "types.INTERP_LINEAR")];
  cmn := Op "CropMirrorNormalize"
           [("device", PStr "gpu");
            ("dtype", PConst "types.FLOAT");
            ("crop", PTuple [PInt 227; PInt 227]);
            ("mean", PList [PFloat 128; PFloat 128; PFloat 128]);
            ("std", PList [PFloat 1; PFloat 1; PFloat 1])];
  uniform := Op "Uniform" [("range", PTuple [PFloat 0; PFloat 1])];
  resize_rng := Op "Uniform" [("range", PTuple [PInt 256; PInt 480])]
|}.

Definition base_define_graph (self : CommonPipelineObj) (inputs labels : edge)
  : edge * edge :=
  let images := Apply (decode self) [inputs] [] in
  let images := Apply (resize self) [images]
                  [("resize_shorter", Apply (resize_rng self) [] [])] in
  let output := Apply (cmn self) [images]
                  [("crop_pos_x", Apply (uniform self) [] []);
                   ("crop_pos_y", Apply (uniform self) [] [])] in
  (output, Gpu labels).

Section Classes.

Variable g : globals.

Definition MXNetReaderPipeline__init__ (batch_size num_threads device_id num_gpus : Z)
  : ReaderPipelineObj := {|
  common := CommonPipeline__init__ batch_size num_threads device_id;
  kind := MXNetReaderPipeline;
  input := Op "MXNetReader"
             [("path", PList [PStr (String.append (db_folder g) "train.rec")]);
              ("index_path", PList [PStr (String.append (db_folder g) "train.idx")]);
              ("random_shuffle", PBool true);
              ("shard_id", PInt device_id);
              ("num_shards", PInt num_gpus)]
|}.

Definition CaffeReadPipeline__init__ (batch_size num_threads device_id num_gpus : Z)
  : ReaderPipelineObj := {|
  common := CommonPipeline__init__ batch_size num_threads device_id;
  kind := CaffeReadPipeline;
  input := Op "CaffeReader"
             [("path", PStr (lmdb_folder g));
              ("random_shuffle", PBool true);
              ("shard_id", PInt device_id);
              ("num_shards", PInt num_gpus)]
|}.

Definition FileReadPipeline__init__ (batch_size num_threads device_id num_gpus : Z)
  : ReaderPipelineObj := {|
  common := CommonPipeline__init__ batch_size num_threads device_id;
  kind := FileReadPipeline;
  input := Op "FileReader" [("file_root", PStr image_dir)]
|}.

Definition TFRecordPipeline__init__ (batch_size num_threads device_id num_gpus : Z)
  : ReaderPipelineObj := {|
  common := CommonPipeline__init__ batch_size num_threads device_id;
  kind := TFRecordPipeline;
  input := Op "TFRecordReader"
             [("path", PStr (tfrecord g));
              ("index_path", PStr tfrecord_idx);
              ("features",
               PDict [("image/encoded",
                       PCall "tfrec.FixedLenFeature"
                         [PTuple []; PConst "tfrec.string"; PStr ""]);
                      ("image/class/label",
                       PCall "tfrec.FixedLenFeature"
                         [PList [PInt 1]; PConst "tfrec.int64"; PInt (-1)])])]
|}.

(** [pipe_name(batch_size=..., num_threads=..., device_id=..., num_gpus=...)] *)
Definition construct (k : pipe_kind) : Z -> Z -> Z -> Z -> ReaderPipelineObj :=
  match k with
  | MXNetReaderPipeline => MXNetReaderPipeline__init__
  | CaffeReadPipeline => CaffeReadPipeline__init__
  | FileReadPipeline => FileReadPipeline__init__
  | TFRecordPipeline => TFRecordPipeline__init__
  end.

End Classes.

(** The [define_graph] methods. *)
Definition MXNetReaderPipeline_define_graph (self : ReaderPipelineObj) : edge * edge :=
  let outs := Apply (input self) [] [("name", Const (PStr "Reader"))] in
  let images := Item outs (Idx 0) in
  let labels := Item outs (Idx 1) in
  base_define_graph (common self) images labels.

Definition CaffeReadPipeline_define_graph (self : ReaderPipelineObj) : edge * edge :=
  let outs := Apply (input self) [] [] in
  let images := Item outs (Idx 0) in
  let labels := Item outs (Idx 1) in
  base_define_graph (common self) images labels.

Definition FileReadPipeline_define_graph (self : ReaderPipelineObj) : edge * edge :=
  let outs := Apply (input self) [] [] in
  let images := Item outs (Idx 0) in
  let labels := Item outs (Idx 1) in
  base_define_graph (common self) images labels.

Definition TFRecordPipeline_define_graph (self : ReaderPipelineObj) : edge * edge :=
  let inputs := Apply (input self) [] [] in
  let images := Item inputs (Key "image/encoded") in
  let labels := Item inputs (Key "image/class/label") in
  base_define_graph (common self) images labels.

(** Method resolution: the [define_graph] of the object's class. *)
Definition define_graph (self : ReaderPipelineObj) : edge * edge :=
  match kind self with
  | MXNetReaderPipeline => MXNetReaderPipeline_define_graph self
  | CaffeReadPipeline => CaffeReadPipeline_define_graph self
  | FileReadPipeline => FileReadPipeline_define_graph self
  | TFRecordPipeline => TFRecordPipeline_define_graph self
  end.

(** ** The notebook's effects *)

(** TensorFlow dtypes named in the notebook. *)
Inductive tf_dtype :=
| tf_float32
| tf_int32
| tf_int64.

(** What the notebook asks of the outside, in order; a call is logged when
    it is made, also when it then raises. *)
Inductive event :=
| Mkdir (path : string)
| Call (argv : list string)
| Print (line : string)
| New (cls : pipe_kind) (batch_size num_threads device_id num_gpus : Z)
| DaliOp (tf_device : string) (pipeline : ReaderPipelineObj)
    (shapes : list (list Z)) (dtypes : list tf_dtype) (device_id : Z)
| SessRun (cls : pipe_kind) (iteration : Z).

(** The three assertions of the self-test loop, in source order. *)
Inductive assertion :=
| LabelsIntegral
| LabelsLowerBound
| LabelsUpperBound.

(** [OSError name] stands for the subclasses of OSError other than
    FileExistsError, such as FileNotFoundError and PermissionError. *)
Inductive exn :=
| KeyError (key : string)
| FileExistsError (path : string)
| OSError (name : string)
| IndexError
| AssertionError (a : assertion).

(** What a path names: a directory, a file, or a symbolic link to the path
    [target] (written as seen from the working directory). *)
Inductive fnode :=
| Dir
| File (content : string)
| Link (target : string).

Record world := World {
  fs : gmap string fnode;
  out : list event
}.

(** Computations that change the world and return or raise. *)
Definition M (A : Type) : Type := world -> world * (exn + A).

Definition ret {A} (x : A) : M A := fun w => (w, inr x).

Definition raise {A} (e : exn) : M A := fun w => (w, inl e).

Definition bind {A B} (c : M A) (k : A -> M B) : M B :=
  fun w =>
    match c w with
    | (w', inr x) => k x w'
    | (w', inl e) => (w', inl e)
    end.

Declare Scope py_scope.
Delimit Scope py_scope with py.
Notation "x <- c ;; k" := (bind c (fun x => k))
  (at level 100, c at next level, right associativity) : py_scope.
Notation "c ;; k" := (bind c (fun _ => k))
  (at level 100, right associativity) : py_scope.
Local Open Scope py_scope.

Definition emit (e : event) : M unit :=
  fun w => (World (fs w) (out w ++ [e]), inr tt).

(** [for x in xs: body(x)] *)
Fixpoint for_ {A} (xs : list A) (body : A -> M unit) : M unit :=
  match xs with
  | [] => ret tt
  | x :: rest => body x ;; for_ rest body
  end.

(** [[f(x) for x in xs]] *)
Fixpoint comprehension {A B} (xs : list A) (f : A -> M B) : M (list B) :=
  match xs with
  | [] => ret []
  | x :: rest => y <- f x ;; ys <- comprehension rest f ;; ret (y :: ys)
  end.

(** [assert cond] *)
Definition assert_ (a : assertion) (cond : bool) : M unit :=
  if cond then ret tt else raise (AssertionError a).

Definition print (line : string) : M unit := emit (Print line).

(** What a path names once symbolic links are followed, at most [fuel] of
    them: nothing for a link that dangles or a chain that is too long. *)
Fixpoint resolve (fuel : nat) (tree : gmap string fnode) (path : string)
  : option fnode :=
  match tree !! path with
  | Some (Link target) =>
      match fuel with
      | O => None
      | S n => resolve n tree target
      end
  | entry => entry
  end.

(** The number of links the system follows. *)
Definition MAXSYMLINKS : nat := 40.

(** [os.path.exists] and [os.path.isfile]: both follow symbolic links. *)
Definition path_exists (tree : gmap string fnode) (path : string) : bool :=
  match resolve MAXSYMLINKS tree path with
  | Some _ => true
  | None => false
  end.

Definition is_file (tree : gmap string fnode) (path : string) : bool :=
  match resolve MAXSYMLINKS tree path with
  | Some (File _) => true
  | _ => false
  end.

Definition os_path_exists (path : string) : M bool :=
  fun w => (w, inr (path_exists (fs w) path)).

Definition os_path_isfile (path : string) : M bool :=
  fun w => (w, inr (is_file (fs w) path)).

(** [seq[i]] for a Python list *)
Definition getitem {A} (xs : list A) (i : Z) : M A :=
  let len := Z.of_nat (length xs) in
  let j := if i <? 0 then i + len else i in
  if j <? 0 then raise IndexError
  else match nth_error xs (Z.to_nat j) with
       | Some x => ret x
       | None => raise IndexError
       end.

(** The table of the self-test cell: class, label dtype, label range. *)
Definition pipe_types : list (pipe_kind * tf_dtype * (Z * Z)) :=
  [(MXNetReaderPipeline, tf_float32, (0, 999));
   (CaffeReadPipeline, tf_int32, (0, 999));
   (FileReadPipeline, tf_int32, (0, 1));
   (TFRecordPipeline, tf_int64, (1, 1000))].

Section Notebook.

(** What running the [tfrecord2idx] script with the given arguments does:
    the name of the OSError when the program cannot be started, else the
    files it leaves; the name of the OSError with which the system refuses to
    create a directory that nothing stands in the way of, if it does; and the
    label arrays (one per device) that the [i]-th [sess.run] of the session
    of a pipeline class returns. *)
Variable tfrecord2idx : list string -> gmap string fnode -> string + gmap string fnode.
Variable mkdir_refused : string -> option string.
Variable sess_run : pipe_kind -> Z -> list Np.array.

(** [os.mkdir(path)]: raises FileExistsError when the path names anything,
    a symbolic link included. *)
Definition os_mkdir (path : string) : M unit :=
  fun w =>
    let w' := World (fs w) (out w ++ [Mkdir path]) in
    match fs w !! path with
    | Some _ => (w', inl (FileExistsError path))
    | None =>
        match mkdir_refused path with
        | Some name => (w', inl (OSError name))
        | None => (World (<[path := Dir]> (fs w)) (out w ++ [Mkdir path]), inr tt)
        end
    end.

(** [subprocess.call(argv)]; the exit code of the program is dropped. *)
Definition call (argv : list string) : M unit :=
  fun w =>
    match tfrecord2idx argv (fs w) with
    | inl name => (World (fs w) (out w ++ [Call argv]), inl (OSError name))
    | inr tree => (World tree (out w ++ [Call argv]), inr tt)
    end.

(** First code cell: [test_data_root = os.environ['DALI_EXTRA_PATH']] and
    the paths derived from it. *)
Definition cell_constants (environ : gmap string string) : M globals :=
  match environ !! "DALI_EXTRA_PATH" with
  | None => raise (KeyError "DALI_EXTRA_PATH")
  | Some root => ret (mk_globals root)
  end.

(** Second code cell: create the idx file. *)
Definition cell_index (g : globals) : M unit :=
  (e <- os_path_exists "idx_files" ;;
   (if negb e then os_mkdir "idx_files" else ret tt)) ;;
  f <- os_path_isfile tfrecord_idx ;;
  if negb f then call [tfrecord2idx_script; tfrecord g; tfrecord_idx]
  else ret tt.

(** Calling a pipeline class: the call is observable, the result is the
    object its [__init__] sets up. *)
Definition new (g : globals) (cls : pipe_kind)
    (batch_size num_threads device_id num_gpus : Z) : M ReaderPipelineObj :=
  emit (New cls batch_size num_threads device_id num_gpus) ;;
  ret (construct g cls batch_size num_threads device_id num_gpus).

(** [get_batch_test_dali]: the pipelines, then one [daliop] per device.  The
    returned value is the pair of lists of tensors; a tensor is identified by
    the device whose [daliop] produced it. *)
Definition get_batch_test_dali (g : globals) (batch_size : Z)
    (pipe_type : pipe_kind * tf_dtype * (Z * Z)) : M (list Z * list Z) :=
  let '(pipe_name, label_type, _) := pipe_type in
  pipes <- comprehension (range N) (fun device_id =>
             new g pipe_name batch_size 2 device_id N) ;;
  for_ (range N) (fun d =>
    p <- getitem pipes d ;;
    emit (DaliOp (String.append "/gpu:" (format_int d)) p
            [[BATCH_SIZE; 3; 227; 227]; []] [tf_int32; label_type] d)) ;;
  ret (range N, range N).

(** The three assertions on one array of labels. *)
Definition check_label (bounds : Z * Z) (label : Np.array) : M unit :=
  assert_ LabelsIntegral
    (Np.all (map (fun x => Np.equal (Np.mod1 x) 0) label)) ;;
  assert_ LabelsLowerBound (Np.all (map (fun x => Np.ge x (fst bounds)) label)) ;;
  assert_ LabelsUpperBound (Np.all (map (fun x => Np.le x (snd bounds)) label)).

(** The body of [with Session(config=config) as sess:]. *)
Definition session_loop (pipe_name : pipe_kind * tf_dtype * (Z * Z)) : M unit :=
  for_ (range ITERATIONS) (fun i =>
    emit (SessRun (fst (fst pipe_name)) i) ;;
    let labels := sess_run (fst (fst pipe_name)) i in
    for_ labels (check_label (snd pipe_name))).

(** Last code cell: the self-test loop.  The calls of [placeholder],
    [GPUOptions] and [ConfigProto] and entering and leaving the session do
    nothing the log records. *)
Definition cell_selftest (g : globals) : M unit :=
  for_ pipe_types (fun pipe_name =>
    print (String.append "RUN: " (__name__ (fst (fst pipe_name)))) ;;
    test_batch <- get_batch_test_dali g BATCH_SIZE pipe_name ;;
    session_loop pipe_name ;;
    print (String.append "OK : " (__name__ (fst (fst pipe_name))))).

(** Running the code cells top to bottom; a cell that raises stops the run. *)
Definition notebook (environ : gmap string string) : M unit :=
  g <- cell_constants environ ;;
  cell_index g ;;
  cell_selftest g.

End Notebook.

(** ** Vocabulary of the statements *)

(** A label that passes the three assertions: a finite number equal to an
    integer of the closed range. *)
Definition valid_label (bounds : Z * Z) (x : Np.scalar) : Prop :=
  exists (q : Q) (z : Z),
    x = Np.Fin q /\ (q == inject_Z z)%Q /\ fst bounds <= z <= snd bounds.

(** The first of the three assertions that fails on one array, if any. *)
Definition check_result (bounds : Z * Z) (label : Np.array) : option assertion :=
  if negb (Np.all (map (fun x => Np.equal (Np.mod1 x) 0) label)) then Some LabelsIntegral
  else if negb (Np.all (map (fun x => Np.ge x (fst bounds)) label)) then Some LabelsLowerBound
  else if negb (Np.all (map (fun x => Np.le x (snd bounds)) label)) then Some LabelsUpperBound
  else None.

(** The first assertion that fails on the arrays of one [sess.run]. *)
Fixpoint first_failure (bounds : Z * Z) (labels : list Np.array) : option assertion :=
  match labels with
  | [] => None
  | label :: rest =>
      match check_result bounds label with
      | Some a => Some a
      | None => first_failure bounds rest
      end
  end.

Definition outcome (r : option assertion) : exn + unit :=
  match r with
  | Some a => inl (AssertionError a)
  | None => inr tt
  end.

(** The events of [get_batch_test_dali]. *)
Definition build_events (g : globals) (batch_size : Z)
    (pipe_type : pipe_kind * tf_dtype * (Z * Z)) : list event :=
  let '(pipe_name, label_type, _) := pipe_type in
  map (fun d => New pipe_name batch_size 2 d N) (range N) ++
  map (fun d => DaliOp (String.append "/gpu:" (format_int d))
                  (construct g pipe_name batch_size 2 d N)
                  [[BATCH_SIZE; 3; 227; 227]; []] [tf_int32; label_type] d)
      (range N).

Definition run_line (k : pipe_kind) : event := Print (String.append "RUN: " (__name__ k)).
Definition ok_line (k : pipe_kind) : event := Print (String.append "OK : " (__name__ k)).

(** Everything one row of the table does when all its batches pass. *)
Definition full_block (g : globals) (row : pipe_kind * tf_dtype * (Z * Z)) : list event :=
  (run_line (fst (fst row)) :: build_events g BATCH_SIZE row) ++
  map (SessRun (fst (fst row))) (range ITERATIONS) ++ [ok_line (fst (fst row))].

(** What one row does when the batch of iteration [i] is the first to fail,
    [done] being the iterations before it. *)
Definition cut_block (g : globals) (row : pipe_kind * tf_dtype * (Z * Z))
    (done : list Z) (i : Z) : list event :=
  (run_line (fst (fst row)) :: build_events g BATCH_SIZE row) ++
  map (SessRun (fst (fst row))) done ++ [SessRun (fst (fst row)) i].

(** The events a computation adds to the log of the world it starts in. *)
Definition events_of {A} (c : M A) (w : world) : list event :=
  skipn (length (out w)) (out (fst (c w))).

(** The lines printed and, per pipeline class, the iterations pulled. *)
Definition printed (tr : list event) : list string :=
  flat_map (fun e => match e with Print line => [line] | _ => [] end) tr.

Definition same_kind (k k' : pipe_kind) : bool :=
  match k, k' with
  | MXNetReaderPipeline, MXNetReaderPipeline
  | CaffeReadPipeline, CaffeReadPipeline
  | FileReadPipeline, FileReadPipeline
  | TFRecordPipeline, TFRecordPipeline => true
  | _, _ => false
  end.

Definition pulled (k : pipe_kind) (tr : list event) : list Z :=
  flat_map (fun e => match e with
                     | SessRun k' i => if same_kind k k' then [i] else []
                     | _ => []
                     end) tr.

Definition is_build (e : event) : Prop :=
  match e with
  | New _ _ _ _ _ | DaliOp _ _ _ _ _ => True
  | _ => False
  end.

(** Every session run in the log comes after the RUN line of its class. *)
Definition run_guarded (tr : list event) : Prop :=
  forall l1 l2 k i, tr = l1 ++ SessRun k i :: l2 -> In (run_line k) l1.

Definition status_lines : list string :=
  ["RUN: MXNetReaderPipeline"; "OK : MXNetReaderPipeline";
   "RUN: CaffeReadPipeline"; "OK : CaffeReadPipeline";
   "RUN: FileReadPipeline"; "OK : FileReadPipeline";
   "RUN: TFRecordPipeline"; "OK : TFRecordPipeline"].

Definition row_lines (row : pipe_kind * tf_dtype * (Z * Z)) : list string :=
  [String.append "RUN: " (__name__ (fst (fst row)));
   String.append "OK : " (__name__ (fst (fst row)))].

(** The exception the directory step of the index cell raises, if any:
    none when idx_files exists; FileExistsError when the name is taken by a
    link that leads nowhere; the system's error when it refuses to create
    the directory. *)
Definition dir_error (mkdir_refused : string -> option string)
    (tree : gmap string fnode) : option exn :=
  if path_exists tree "idx_files" then None
  else match tree !! "idx_files" with
       | Some _ => Some (FileExistsError "idx_files")
       | None => option_map OSError (mkdir_refused "idx_files")
       end.

Definition dir_ready (mkdir_refused : string -> option string)
    (tree : gmap string fnode) : bool :=
  match dir_error mkdir_refused tree with
  | None => true
  | Some _ => false
  end.

(** The files after a directory step that does not raise. *)
Definition with_dir (tree : gmap string fnode) : gmap string fnode :=
  if path_exists tree "idx_files" then tree else <["idx_files" := Dir]> tree.

(** How [define_graph] calls the reader of a class, and which of the
    reader's outputs are the images and the labels: the first and the second
    output, or the features of those names for the TFRecord reader. *)
Definition reader_call_kwargs (k : pipe_kind) : list (string * edge) :=
  match k with
  | MXNetReaderPipeline => [("name", Const (PStr "Reader"))]
  | _ => []
  end.

Definition images_output (k : pipe_kind) : selector :=
  match k with
  | TFRecordPipeline => Key "image/encoded"
  | _ => Idx 0
  end.

Definition labels_output (k : pipe_kind) : selector :=
  match k with
  | TFRecordPipeline => Key "image/class/label"
  | _ => Idx 1
  end.

(** The separator [os.path.join] puts after its first argument. *)
Definition sep_after (root : string) : string :=
  if (String.eqb root "" || endswith_sep root)%bool then "" else "/".

(** The operators on the path from a reader to an edge, first applied first,
    following the first positional input of each call. *)
Fixpoint applied (e : edge) : list string :=
  match e with
  | Apply op inputs _ =>
      match inputs with
      | x :: _ => applied x ++ [op_class op]
      | [] => [op_class op]
      end
  | Const _ => []
  | Item outputs _ => applied outputs
  | Gpu x => applied x
  end.

(** The reader class called by [__init__] and the keywords of the call. *)
Definition reader_class (k : pipe_kind) : string :=
  match k with
  | MXNetReaderPipeline => "MXNetReader"
  | CaffeReadPipeline => "CaffeReader"
  | FileReadPipeline => "FileReader"
  | TFRecordPipeline => "TFRecordReader"
  end.

Definition reader_keywords (k : pipe_kind) : list string :=
  match k with
  | MXNetReaderPipeline =>
      ["path"; "index_path"; "random_shuffle"; "shard_id"; "num_shards"]
  | CaffeReadPipeline => ["path"; "random_shuffle"; "shard_id"; "num_shards"]
  | FileReadPipeline => ["file_root"]
  | TFRecordPipeline => ["path"; "index_path"; "features"]
  end.

(** The default value a reader declares for a feature: the third argument
    of the [tfrec.FixedLenFeature] bound to the feature in [features]. *)
Definition feature_default (reader : operator) (feature : string) : option pyval :=
  match assoc "features" (op_kwargs reader) with
  | Some (PDict features) =>
      match assoc feature features with
      | Some (PCall _ [_; _; default]) => Some default
      | _ => None
      end
  | _ => None
  end.

(** An element of an array of dtype int64. *)
Definition is_int64 (x : Np.scalar) : Prop :=
  exists z : Z, x = Np.Fin (inject_Z z) /\ - 2 ^ 63 <= z < 2 ^ 63.

(** The classes the notebook names: the imported [Pipeline], the common
    pipeline and the four reader pipelines. *)
Inductive class :=
| Pipeline
| CommonPipeline
| Reader (k : pipe_kind).

(** A [class] statement: the bases in its header and the names of the
    methods its body defines. *)
Record class_decl := {
  bases : list class;
  defined : list string
}.

(** The [class] statements of the notebook; [Pipeline] is imported, not
    declared. *)
Definition declared (c : class) : option class_decl :=
  match c with
  | Pipeline => None
  | CommonPipeline =>
      Some {| bases := [Pipeline]; defined := ["__init__"; "base_define_graph"] |}
  | Reader _ =>
      Some {| bases := [CommonPipeline]; defined := ["__init__"; "define_graph"] |}
  end.

Definition direct_subclass_of (c b : class) : Prop :=
  exists decl, declared c = Some decl /\ bases decl = [b].

(** The operators the body of a class's own [__init__] constructs for an
    object, the call to the base [__init__] left out. *)
Definition own_operators (c : class) (self : ReaderPipelineObj) : list operator :=
  match c with
  | Pipeline => []
  | CommonPipeline =>
      [decode (common self); resize (common self); cmn (common self);
       uniform (common self); resize_rng (common self)]
  | Reader _ => [input self]
  end.

Section TraceVocabulary.

Variable sess_run : pipe_kind -> Z -> list Np.array.

(** The session runs of one pipeline class over the given iterations, up to
    and including the first one whose labels fail. *)
Fixpoint session_trace (k : pipe_kind) (bounds : Z * Z) (iterations : list Z)
  : list event * option assertion :=
  match iterations with
  | [] => ([], None)
  | i :: rest =>
      match first_failure bounds (sess_run k i) with
      | Some a => ([SessRun k i], Some a)
      | None =>
          let '(t, r) := session_trace k bounds rest in (SessRun k i :: t, r)
      end
  end.

(** The events of the self-test loop over the given rows of the table. *)
Fixpoint selftest_trace (g : globals) (rows : list (pipe_kind * tf_dtype * (Z * Z)))
  : list event * option assertion :=
  match rows with
  | [] => ([], None)
  | row :: rest =>
      let k := fst (fst row) in
      let head := run_line k :: build_events g BATCH_SIZE row in
      match session_trace k (snd row) (range ITERATIONS) with
      | (t, Some a) => (head ++ t, Some a)
      | (t, None) =>
          let '(t', r) := selftest_trace g rest in
          (head ++ t ++ ok_line k :: t', r)
      end
  end.

(** The labels of the [i]-th session run of a row pass its assertions. *)
Definition batch_ok (row : pipe_kind * tf_dtype * (Z * Z)) (i : Z) : Prop :=
  first_failure (snd row) (sess_run (fst (fst row)) i) = None.

Definition row_ok (row : pipe_kind * tf_dtype * (Z * Z)) : Prop :=
  forall i, In i (range ITERATIONS) -> batch_ok row i.

(** Every OK line in the log comes after all the session runs of a row of
    its class, and that row passed. *)
Definition ok_justified (rows : list (pipe_kind * tf_dtype * (Z * Z)))
    (tr : list event) : Prop :=
  forall l1 l2 k, tr = l1 ++ ok_line k :: l2 ->
    exists row, In row rows /\ fst (fst row) = k /\ row_ok row /\
      forall i, In i (range ITERATIONS) -> In (SessRun k i) l1.

End TraceVocabulary.

(** ** Concrete runs *)

(** A session whose every batch holds the label 1/2, and one whose batches
    hold the labels 1 and 2/2 until TFRecordPipeline returns the default
    label in its fourth batch. *)
Definition halves_run (k : pipe_kind) (i : Z) : list Np.array :=
  [[Np.Fin (1 # 2)]].

Definition default_label_run (k : pipe_kind) (i : Z) : list Np.array :=
  match k with
  | TFRecordPipeline =>
      if i =? 3 then [[Np.Fin 1]; [Np.Fin 7; Np.Fin (inject_Z (-1))]] else [[Np.Fin 1]]
  | _ => [[Np.Fin 1; Np.Fin (2 # 2)]; [Np.Fin 1]]
  end.

(** A session whose labels are all 1, written as 1 or as 2/2. *)
Definition ones_run (k : pipe_kind) (i : Z) : list Np.array :=
  [[Np.Fin 1; Np.Fin (2 # 2)]].

(** A script that writes the index file, a system that refuses no
    directory, a world without files, a world that has the index file
    already and a world where idx_files is a link to nothing. *)
Definition write_index (argv : list string) (tree : gmap string fnode)
  : string + gmap string fnode :=
  inr (<[tfrecord_idx := File "index"]> tree).

Definition no_refusal (path : string) : option string := None.

Definition empty_world : world := World ∅ [].

Definition indexed_world : world :=
  World (<["idx_files" := Dir]> (<[tfrecord_idx := File "old index"]> ∅)) [].

Definition dangling_world : world :=
  World (<["idx_files" := Link "elsewhere"]> ∅) [].

(** ** Vocabulary of the further properties *)

(** A label the integrality assertion accepts. *)
Definition is_integer (x : Np.scalar) : Prop :=
  exists (q : Q) (z : Z), x = Np.Fin q /\ (q == inject_Z z)%Q.

(** An event that changes files or runs a command. *)
Definition touches_files (e : event) : Prop :=
  match e with
  | Mkdir _ | Call _ => True
  | _ => False
  end.

(** The keyword argument of a pipeline's reader. *)
Definition reader_arg (p : ReaderPipelineObj) (key : string) : option pyval :=
  assoc key (op_kwargs (input p)).

(** Every session run in the log comes after everything
    [get_batch_test_dali] does for a row of its class. *)
Definition build_guarded (g : globals) (rows : list (pipe_kind * tf_dtype * (Z * Z)))
    (tr : list event) : Prop :=
  forall l1 l2 k i, tr = l1 ++ SessRun k i :: l2 ->
    exists row, In row rows /\ fst (fst row) = k /\
      forall e, In e (build_events g BATCH_SIZE row) -> In e l1.

(** A session that returns two arrays without labels. *)
Definition no_labels_run (k : pipe_kind) (i : Z) : list Np.array :=
  [[]; []].

(** ** What a run of the self-test cell does *)

Section Traces.

Variable sess_run : pipe_kind -> Z -> list Np.array.

Lemma check_label_run bounds label w :
  check_label bounds label w = (w, outcome (check_result bounds label)).
Proof.
  unfold check_label, check_result, bind, assert_, ret, raise.
  destruct (Np.all (map (fun x => Np.equal (Np.mod1 x) 0) label)); simpl; [|reflexivity].
  destruct (Np.all (map (fun x => Np.ge x (fst bounds)) label)); simpl; [|reflexivity].
  destruct (Np.all (map (fun x => Np.le x (snd bounds)) label)); reflexivity.
Qed.

Lemma check_labels_run bounds labels w :
  for_ labels (check_label bounds) w = (w, outcome (first_failure bounds labels)).
Proof.
  induction labels as [|label rest IH]; simpl; [reflexivity|].
  unfold bind. rewrite check_label_run.
  destruct (check_result bounds label); simpl; [reflexivity|apply IH].
Qed.

Lemma session_iterations_run k bounds iterations w :
  for_ iterations (fun i =>
    emit (SessRun k i) ;; for_ (sess_run k i) (check_label bounds)) w
  = (World (fs w) (out w ++ fst (session_trace sess_run k bounds iterations)),
     outcome (snd (session_trace sess_run k bounds iterations))).
Proof.
  revert w. induction iterations as [|i rest IH]; intros w; simpl.
  - rewrite app_nil_r. now destruct w.
  - unfold bind at 1. unfold bind at 1. unfold emit at 1.
    rewrite check_labels_run.
    destruct (first_failure bounds (sess_run k i)); simpl; [reflexivity|].
    rewrite IH. simpl.
    destruct (session_trace sess_run k bounds rest) as [t r]; simpl.
    now rewrite <- app_assoc.
Qed.

Lemma session_loop_run row w :
  session_loop sess_run row w
  = (World (fs w) (out w ++ fst (session_trace sess_run (fst (fst row)) (snd row) (range ITERATIONS))),
     outcome (snd (session_trace sess_run (fst (fst row)) (snd row) (range ITERATIONS)))).
Proof.
  destruct row as [[k dt] bounds]. unfold session_loop. cbn [fst snd].
  apply session_iterations_run.
Qed.

Lemma get_batch_test_dali_run g batch_size row w :
  get_batch_test_dali g batch_size row w
  = (World (fs w) (out w ++ build_events g batch_size row), inr (range N, range N)).
Proof.
  destruct row as [[k dt] bounds]. destruct w as [tree tr].
  unfold get_batch_test_dali, build_events.
  cbv [N range Z.to_nat Pos.to_nat Pos.iter_op Init.Nat.add seq map comprehension
       for_ bind new emit ret getitem fs out].
  simpl. rewrite <- !app_assoc. reflexivity.
Qed.

Lemma cell_selftest_rows_run g rows w :
  for_ rows (fun pipe_name =>
    print (String.append "RUN: " (__name__ (fst (fst pipe_name)))) ;;
    test_batch <- get_batch_test_dali g BATCH_SIZE pipe_name ;;
    session_loop sess_run pipe_name ;;
    print (String.append "OK : " (__name__ (fst (fst pipe_name))))) w
  = (World (fs w) (out w ++ fst (selftest_trace sess_run g rows)),
     outcome (snd (selftest_trace sess_run g rows))).
Proof.
  revert w. induction rows as [|row rest IH]; intros w; cbn [for_ selftest_trace].
  - cbn. rewrite app_nil_r. now destruct w.
  - unfold bind at 1. unfold bind at 1. unfold print at 1, emit at 1.
    unfold bind at 1. rewrite get_batch_test_dali_run.
    unfold bind at 1. rewrite session_loop_run. cbn [fs out].
    destruct (session_trace sess_run (fst (fst row)) (snd row) (range ITERATIONS)) as [t [a|]];
      cbn [fst snd outcome].
    + f_equal. f_equal. unfold run_line. now rewrite <- !app_assoc.
    + unfold print at 1, emit at 1. cbn [fs out]. rewrite IH. cbn [fs out].
      destruct (selftest_trace sess_run g rest) as [t' r]; cbn [fst snd].
      f_equal. f_equal. unfold run_line, ok_line. rewrite <- !app_assoc.
      reflexivity.
Qed.

Lemma cell_selftest_run g w :
  cell_selftest sess_run g w
  = (World (fs w) (out w ++ fst (selftest_trace sess_run g pipe_types)),
     outcome (snd (selftest_trace sess_run g pipe_types))).
Proof. apply cell_selftest_rows_run. Qed.

End Traces.

(** ** The label assertions decide label validity *)

Lemma range_spec n i : In i (range n) <-> 0 <= i < n.
Proof.
  unfold range. rewrite in_map_iff. split.
  - intros (j & <- & Hj). apply in_seq in Hj. lia.
  - intros Hi. exists (Z.to_nat i). split; [lia|]. apply in_seq. lia.
Qed.

Lemma all_map_true {A} (f : A -> bool) (xs : list A) :
  Np.all (map f xs) = true <-> forall x, In x xs -> f x = true.
Proof.
  unfold Np.all. rewrite forallb_forall. split.
  - intros H x Hx. apply (H (f x)). now apply in_map.
  - intros H b Hb. apply in_map_iff in Hb as (x & <- & Hx). now apply H.
Qed.

Lemma mod1_zero_iff (x : Np.scalar) :
  Np.equal (Np.mod1 x) 0 = true <->
  exists (q : Q) (z : Z), x = Np.Fin q /\ (q == inject_Z z)%Q.
Proof.
  destruct x as [q| | |]; simpl;
    try (split; [discriminate | intros (q' & z & H & _); discriminate]).
  rewrite Qeq_bool_iff. split.
  - intros H. exists q, (Qfloor q). split; [reflexivity|].
    apply Qplus_inj_r with (z := (- inject_Z (Qfloor q))%Q).
    rewrite Qplus_opp_r. exact H.
  - intros (q' & z & [= <-] & Hz).
    assert (Qfloor q = z) as -> by (rewrite Hz; apply Qfloor_Z).
    rewrite Hz. unfold Qminus. apply Qplus_opp_r.
Qed.

Lemma check_result_none bounds (label : Np.array) :
  check_result bounds label = None <-> forall x, In x label -> valid_label bounds x.
Proof.
  unfold check_result.
  destruct (Np.all (map (fun x => Np.equal (Np.mod1 x) 0) label)) eqn:Hint; simpl.
  2:{ split; [discriminate|]. intros H.
      assert (Np.all (map (fun x => Np.equal (Np.mod1 x) 0) label) = true) as Ht;
        [|congruence].
      apply all_map_true. intros x Hx. apply mod1_zero_iff.
      destruct (H x Hx) as (q & z & ? & ? & _). eauto. }
  destruct (Np.all (map (fun x => Np.ge x (fst bounds)) label)) eqn:Hlo; simpl.
  2:{ split; [discriminate|]. intros H.
      assert (Np.all (map (fun x => Np.ge x (fst bounds)) label) = true) as Ht;
        [|congruence].
      apply all_map_true. intros x Hx.
      destruct (H x Hx) as (q & z & -> & Hz & Hlow & _). simpl.
      apply Qle_bool_iff. rewrite Hz, <- Zle_Qle. exact Hlow. }
  destruct (Np.all (map (fun x => Np.le x (snd bounds)) label)) eqn:Hhi; simpl.
  2:{ split; [discriminate|]. intros H.
      assert (Np.all (map (fun x => Np.le x (snd bounds)) label) = true) as Ht;
        [|congruence].
      apply all_map_true. intros x Hx.
      destruct (H x Hx) as (q & z & -> & Hz & _ & Hup). simpl.
      apply Qle_bool_iff. rewrite Hz, <- Zle_Qle. exact Hup. }
  split; [intros _|reflexivity]. intros x Hx.
  pose proof (proj1 (all_map_true _ _) Hint x Hx) as H1.
  pose proof (proj1 (all_map_true _ _) Hlo x Hx) as H2.
  pose proof (proj1 (all_map_true _ _) Hhi x Hx) as H3.
  apply mod1_zero_iff in H1 as (q & z & -> & Hz). simpl in H2, H3.
  apply Qle_bool_iff in H2, H3. rewrite Hz, <- Zle_Qle in H2, H3.
  exists q, z. auto.
Qed.

Lemma first_failure_none bounds (labels : list Np.array) :
  first_failure bounds labels = None <->
  forall label, In label labels -> forall x, In x label -> valid_label bounds x.
Proof.
  induction labels as [|label rest IH]; simpl.
  - split; [intros _ ? []|reflexivity].
  - destruct (check_result bounds label) eqn:Hc.
    + split; [discriminate|]. intros H.
      assert (check_result bounds label = None) as Hn; [|congruence].
      apply check_result_none. intros x Hx. apply (H label); auto.
    + rewrite IH. split.
      * intros H l [<-|Hl]; [now apply check_result_none|now apply H].
      * intros H l Hl. apply H. now right.
Qed.

(** ** Occurrences in a list of events *)

Lemma app_occurrence {A} (a b l1 l2 : list A) (x : A) :
  a ++ b = l1 ++ x :: l2 ->
  (exists m, a = l1 ++ x :: m /\ l2 = m ++ b) \/
  (exists m, l1 = a ++ m /\ b = m ++ x :: l2).
Proof.
  revert l1. induction a as [|y a IH]; intros l1 H; simpl in H.
  - right. exists l1. auto.
  - destruct l1 as [|z l1]; simpl in H.
    + injection H as E1 E2. subst. left. exists a. auto.
    + injection H as E1 H. subst. destruct (IH _ H) as [(m & E1 & E2)|(m & E1 & E2)]; subst.
      * left. exists m. auto.
      * right. exists m. auto.
Qed.

Lemma snoc_occurrence {A} (a l1 l2 : list A) (x y : A) :
  a ++ [y] = l1 ++ x :: l2 -> (l2 = [] /\ l1 = a /\ x = y) \/ In x a.
Proof.
  intros H. apply app_occurrence in H as [(m & E1 & E2)|(m & E1 & H)]; subst.
  - right. apply in_elt.
  - destruct m as [|z m]; simpl in H.
    + injection H as E1 E2. subst. left. rewrite app_nil_r. auto.
    + injection H as _ H. now destruct m.
Qed.

(** ** The shape of the self-test trace *)

Section Shape.

Variable sess_run : pipe_kind -> Z -> list Np.array.

Lemma session_trace_shape k bounds iterations :
  match snd (session_trace sess_run k bounds iterations) with
  | None =>
      fst (session_trace sess_run k bounds iterations) = map (SessRun k) iterations /\
      forall i, In i iterations -> first_failure bounds (sess_run k i) = None
  | Some a =>
      exists done i todo,
        iterations = done ++ i :: todo /\
        fst (session_trace sess_run k bounds iterations)
          = map (SessRun k) done ++ [SessRun k i] /\
        (forall j, In j done -> first_failure bounds (sess_run k j) = None) /\
        first_failure bounds (sess_run k i) = Some a
  end.
Proof.
  induction iterations as [|i rest IH]; simpl.
  - split; [reflexivity|intros ? []].
  - destruct (first_failure bounds (sess_run k i)) as [a|] eqn:Hi; simpl.
    + exists [], i, rest. repeat split; auto. intros ? [].
    + destruct (session_trace sess_run k bounds rest) as [t [a|]]; simpl in *.
      * destruct IH as (done & j & todo & -> & -> & Hdone & Hj).
        exists (i :: done), j, todo. repeat split; auto.
        intros j' [<-|Hj']; auto.
      * destruct IH as [-> Hrest]. split; [reflexivity|].
        intros j [<-|Hj]; auto.
Qed.

Lemma full_block_cons g row before tail :
  concat (map (full_block g) (row :: before)) ++ tail
  = (run_line (fst (fst row)) :: build_events g BATCH_SIZE row) ++
    map (SessRun (fst (fst row))) (range ITERATIONS) ++
    ok_line (fst (fst row)) :: concat (map (full_block g) before) ++ tail.
Proof.
  cbn [map concat]. generalize (concat (map (full_block g) before)). intros l.
  unfold full_block. rewrite <- !app_assoc. reflexivity.
Qed.

Lemma selftest_trace_shape g rows :
  match snd (selftest_trace sess_run g rows) with
  | None =>
      fst (selftest_trace sess_run g rows) = concat (map (full_block g) rows) /\
      forall row, In row rows -> row_ok sess_run row
  | Some a =>
      exists before row after done i todo,
        rows = before ++ row :: after /\
        range ITERATIONS = done ++ i :: todo /\
        fst (selftest_trace sess_run g rows)
          = concat (map (full_block g) before) ++ cut_block g row done i /\
        (forall r, In r before -> row_ok sess_run r) /\
        (forall j, In j done -> batch_ok sess_run row j) /\
        first_failure (snd row) (sess_run (fst (fst row)) i) = Some a
  end.
Proof.
  induction rows as [|row rest IH]; cbn [selftest_trace].
  - simpl. split; [reflexivity|intros ? []].
  - pose proof (session_trace_shape (fst (fst row)) (snd row) (range ITERATIONS)) as Hs.
    destruct (session_trace sess_run (fst (fst row)) (snd row) (range ITERATIONS))
      as [t [a|]]; cbn [fst snd] in *.
    + destruct Hs as (done & i & todo & Hr & -> & Hdone & Hi).
      exists [], row, rest, done, i, todo. repeat split; auto. intros ? [].
    + destruct Hs as [-> Hrow].
      destruct (selftest_trace sess_run g rest) as [t' [a|]]; cbn [fst snd] in *.
      * destruct IH as (before & r & after & done & i & todo & -> & Hr & -> & Hb & Hd & Hi).
        exists (row :: before), r, after, done, i, todo. repeat split; auto.
        -- now rewrite full_block_cons.
        -- intros r' [<-|Hr']; auto.
      * destruct IH as [-> Hrest]. split.
        -- rewrite <- (app_nil_r (concat (map (full_block g) (row :: rest)))).
           rewrite full_block_cons. now rewrite app_nil_r.
        -- intros r [<-|Hr]; auto.
Qed.

End Shape.

(** ** Observing a run *)

Lemma skipn_length_app {A} (a b : list A) : skipn (length a) (a ++ b) = b.
Proof. induction a; simpl; auto. Qed.

Lemma events_of_selftest sess_run g w :
  events_of (cell_selftest sess_run g) w = fst (selftest_trace sess_run g pipe_types).
Proof.
  unfold events_of. rewrite cell_selftest_run. cbn [fst out].
  apply skipn_length_app.
Qed.

Lemma same_kind_true k k' : same_kind k k' = true <-> k = k'.
Proof. destruct k, k'; simpl; split; congruence. Qed.

Lemma build_events_are_build g batch_size row e :
  In e (build_events g batch_size row) -> is_build e.
Proof.
  destruct row as [[k dt] bounds]. unfold build_events.
  rewrite in_app_iff, !in_map_iff. intros [(d & <- & _)|(d & <- & _)]; exact I.
Qed.

Lemma run_line_inj k k' : run_line k = run_line k' -> k = k'.
Proof. destruct k, k'; intros H; try reflexivity; discriminate H. Qed.

Lemma ok_line_inj k k' : ok_line k = ok_line k' -> k = k'.
Proof. destruct k, k'; intros H; try reflexivity; discriminate H. Qed.

Lemma run_line_not_ok k k' : run_line k <> ok_line k'.
Proof. destruct k, k'; discriminate. Qed.

(** The rows of the table have pairwise different classes. *)
Lemma pipe_types_functional row row' :
  In row pipe_types -> In row' pipe_types -> fst (fst row) = fst (fst row') -> row = row'.
Proof.
  unfold pipe_types. simpl.
  intros [<-|[<-|[<-|[<-|[]]]]] [<-|[<-|[<-|[<-|[]]]]]; simpl; intros H;
    try reflexivity; discriminate H.
Qed.

Lemma selftest_passes_iff
    (sess_run : pipe_kind -> Z -> list Np.array) (g : globals) (w : world) :
  snd (cell_selftest sess_run g w) = inr tt <->
  forall k dt bounds, In (k, dt, bounds) pipe_types ->
  forall i, 0 <= i < ITERATIONS ->
  forall label, In label (sess_run k i) ->
  forall x, In x label -> valid_label bounds x.
Proof.
  rewrite cell_selftest_run. cbn [snd].
  pose proof (selftest_trace_shape sess_run g pipe_types) as Hs.
  destruct (snd (selftest_trace sess_run g pipe_types)) as [a|]; cbn [outcome].
  - split; [discriminate|]. intros H. exfalso.
    destruct Hs as (before & row & after & done & i & todo & Hrows & Hr & _ & _ & _ & Hi).
    destruct row as [[k dt] bounds]. cbn [fst snd] in Hi.
    assert (first_failure bounds (sess_run k i) = None) as Hn; [|congruence].
    apply first_failure_none. apply (H k dt bounds).
    + rewrite Hrows. apply in_elt.
    + apply range_spec. rewrite Hr. apply in_elt.
  - split; [intros _|reflexivity]. destruct Hs as [_ Hrows].
    intros k dt bounds Hrow i Hi.
    apply range_spec in Hi. specialize (Hrows _ Hrow i Hi).
    unfold batch_ok in Hrows. cbn [fst snd] in Hrows.
    now apply first_failure_none.
Qed.

(** C1: the self-test cell finishes without an exception exactly when, for
    every row of the table (MXNet [0,999], Caffe [0,999], plain files [0,1],
    TFRecord [1,1000]), for each of the ITERATIONS = 32 session runs, every
    label of every returned array is integral and lies in the closed range of
    the row: the label assertions are all the cell checks. *)
Theorem selftest_checks_label_validity
    (sess_run : pipe_kind -> Z -> list Np.array) (g : globals) (w : world) :
  map (fun row => (__name__ (fst (fst row)), snd row)) pipe_types
    = [("MXNetReaderPipeline", (0, 999)); ("CaffeReadPipeline", (0, 999));
       ("FileReadPipeline", (0, 1)); ("TFRecordPipeline", (1, 1000))] /\
  ITERATIONS = 32 /\
  (snd (cell_selftest sess_run g w) = inr tt <->
   forall k dt bounds, In (k, dt, bounds) pipe_types ->
   forall i, 0 <= i < ITERATIONS ->
   forall label, In label (sess_run k i) ->
   forall x, In x label -> valid_label bounds x).
Proof.
  split; [reflexivity|]. split; [reflexivity|]. apply selftest_passes_iff.
Qed.

(** ** Where the events of a row can occur *)

Section Occurrences.

Variable sess_run : pipe_kind -> Z -> list Np.array.
Variable g : globals.

Abbreviation row_t := (pipe_kind * tf_dtype * (Z * Z))%type.

Lemma sessrun_in_head (row : row_t) done k i :
  In (SessRun k i)
     ((run_line (fst (fst row)) :: build_events g BATCH_SIZE row) ++
      map (SessRun (fst (fst row))) done) ->
  k = fst (fst row) /\ In i done.
Proof.
  rewrite in_app_iff. simpl. rewrite in_map_iff.
  intros [[H|H]|(j & H & Hj)].
  - discriminate H.
  - apply build_events_are_build in H. destruct H.
  - injection H as <- <-. auto.
Qed.

Lemma sessrun_in_full_block (row : row_t) k i :
  In (SessRun k i) (full_block g row) -> k = fst (fst row) /\ In i (range ITERATIONS).
Proof.
  unfold full_block. rewrite app_assoc, in_app_iff.
  intros [H|[H|[]]]; [now apply sessrun_in_head in H|discriminate H].
Qed.

Lemma sessrun_in_blocks (rows : list row_t) k i :
  In (SessRun k i) (concat (map (full_block g) rows)) ->
  exists row, In row rows /\ k = fst (fst row) /\ In i (range ITERATIONS).
Proof.
  rewrite in_concat. intros (block & Hb & Hin).
  apply in_map_iff in Hb as (row & <- & Hrow).
  apply sessrun_in_full_block in Hin as [Hk Hi]. exists row. auto.
Qed.

Lemma ok_line_in_head (row : row_t) done k :
  ~ In (ok_line k)
      ((run_line (fst (fst row)) :: build_events g BATCH_SIZE row) ++
       map (SessRun (fst (fst row))) done).
Proof.
  rewrite in_app_iff. simpl. rewrite in_map_iff.
  intros [[H|H]|(j & H & Hj)].
  - now apply run_line_not_ok in H.
  - apply build_events_are_build in H. destruct H.
  - discriminate H.
Qed.

Lemma ok_line_in_cut_block (row : row_t) done i k :
  ~ In (ok_line k) (cut_block g row done i).
Proof.
  unfold cut_block. rewrite app_assoc, in_app_iff.
  intros [H|[H|[]]]; [now apply ok_line_in_head in H|discriminate H].
Qed.

Lemma run_guarded_app a b : run_guarded a -> run_guarded b -> run_guarded (a ++ b).
Proof.
  intros Ha Hb l1 l2 k i H.
  apply app_occurrence in H as [(m & E & _)|(m & -> & E)].
  - now apply Ha in E.
  - apply Hb in E. apply in_app_iff. now right.
Qed.

Lemma run_guarded_headed k0 rest :
  (forall k i, In (SessRun k i) rest -> k = k0) -> run_guarded (run_line k0 :: rest).
Proof.
  intros Hrest l1 l2 k i H. destruct l1 as [|e l1]; simpl in H.
  - discriminate H.
  - injection H as <- H. left. f_equal. symmetry. apply (Hrest k i).
    rewrite H. apply in_elt.
Qed.

Lemma run_guarded_full_block (row : row_t) : run_guarded (full_block g row).
Proof.
  unfold full_block. simpl. apply run_guarded_headed. intros k i H.
  now apply (sessrun_in_full_block row k i); right.
Qed.

Lemma run_guarded_cut_block (row : row_t) done i : run_guarded (cut_block g row done i).
Proof.
  unfold cut_block. simpl. apply run_guarded_headed. intros k j H.
  rewrite app_assoc, in_app_iff in H. destruct H as [H|[H|[]]].
  - assert (In (SessRun k j)
              ((run_line (fst (fst row)) :: build_events g BATCH_SIZE row) ++
               map (SessRun (fst (fst row))) done)) as H'
      by (simpl; right; rewrite in_app_iff in *; exact H).
    now apply sessrun_in_head in H'.
  - now injection H as <- _.
Qed.

Lemma run_guarded_blocks (rows : list row_t) :
  run_guarded (concat (map (full_block g) rows)).
Proof.
  induction rows as [|row rest IH]; cbn [map concat].
  - intros [|? ?] ? ? ? H; discriminate H.
  - apply run_guarded_app; [apply run_guarded_full_block|exact IH].
Qed.

Lemma ok_justified_app rows a b :
  ok_justified sess_run rows a -> ok_justified sess_run rows b -> ok_justified sess_run rows (a ++ b).
Proof.
  intros Ha Hb l1 l2 k H.
  apply app_occurrence in H as [(m & E & _)|(m & -> & E)].
  - now apply Ha in E.
  - apply Hb in E as (row & ? & ? & ? & Hi). exists row. repeat split; auto.
    intros i Hin. apply in_app_iff. right. auto.
Qed.

Lemma ok_justified_full_block rows (row : row_t) :
  In row rows -> row_ok sess_run row -> ok_justified sess_run rows (full_block g row).
Proof.
  intros Hin Hok l1 l2 k H. unfold full_block in H. rewrite app_assoc in H.
  symmetry in H. symmetry in H.
  apply snoc_occurrence in H as [(_ & -> & E)|H].
  - apply ok_line_inj in E as ->. exists row. repeat split; auto.
    intros i Hi. apply in_app_iff. right. now apply in_map.
  - now apply ok_line_in_head in H.
Qed.

Lemma ok_justified_none rows tr :
  (forall k, ~ In (ok_line k) tr) -> ok_justified sess_run rows tr.
Proof. intros Hno l1 l2 k H. destruct (Hno k). rewrite H. apply in_elt. Qed.

Lemma ok_justified_blocks rows (done : list row_t) :
  (forall r, In r done -> In r rows /\ row_ok sess_run r) ->
  ok_justified sess_run rows (concat (map (full_block g) done)).
Proof.
  induction done as [|row rest IH]; cbn [map concat]; intros H.
  - apply ok_justified_none. auto.
  - apply ok_justified_app.
    + destruct (H row) as [Hin Hok]; [now left|].
      now apply ok_justified_full_block.
    + apply IH. intros r Hr. apply H. now right.
Qed.

End Occurrences.

(** ** A failing batch ends the run *)

Lemma failing_pull_is_last sess_run g k dt bounds i l1 l2 a :
  In (k, dt, bounds) pipe_types ->
  fst (selftest_trace sess_run g pipe_types) = l1 ++ SessRun k i :: l2 ->
  first_failure bounds (sess_run k i) = Some a ->
  snd (selftest_trace sess_run g pipe_types) = Some a /\ l2 = [].
Proof.
  intros Hrow Htr Hfail.
  pose proof (selftest_trace_shape sess_run g pipe_types) as Hs.
  assert (forall row, In row pipe_types -> k = fst (fst row) ->
            batch_ok sess_run row i -> False) as Hpass.
  { intros row Hin Hk Hok.
    assert (row = (k, dt, bounds)) as ->
      by (apply pipe_types_functional; auto).
    unfold batch_ok in Hok. cbn [fst snd] in Hok. congruence. }
  destruct (snd (selftest_trace sess_run g pipe_types)) as [a0|].
  - destruct Hs as (before & row & after & done & i0 & todo & Hrows & Hr & Hfst & Hb & Hd & Hi).
    rewrite Hfst in Htr. unfold cut_block in Htr. rewrite !app_assoc in Htr.
    apply snoc_occurrence in Htr as [(-> & _ & E)|Hin].
    + injection E as -> ->. split; [|reflexivity].
      assert (row = (fst (fst row), dt, bounds)) as Hrow'.
      { apply pipe_types_functional; auto. rewrite Hrows. apply in_elt. }
      rewrite Hrow' in Hi. cbn [fst snd] in Hi. congruence.
    + exfalso. rewrite <- app_assoc in Hin. apply in_app_iff in Hin as [Hin|Hin].
      * apply sessrun_in_blocks in Hin as (r & Hr' & Hk & Hi').
        apply (Hpass r); [|exact Hk|exact (Hb r Hr' i Hi')].
        rewrite Hrows. apply in_app_iff. now left.
      * apply sessrun_in_head in Hin as [Hk Hi'].
        apply (Hpass row); [|exact Hk|exact (Hd i Hi')].
        rewrite Hrows. apply in_elt.
  - exfalso. destruct Hs as [Hfst Hok]. rewrite Hfst in Htr.
    assert (In (SessRun k i) (concat (map (full_block g) pipe_types))) as Hin
      by (rewrite Htr; apply in_elt).
    apply sessrun_in_blocks in Hin as (r & Hr' & Hk & Hi').
    exact (Hpass r Hr' Hk (Hok r Hr' i Hi')).
Qed.

(** C5: when the labels of a session run fail an assertion, the self-test
    cell ends with that AssertionError and the failing session run is the
    last thing the cell did: no later iteration is run, no later pipeline
    class is started, nothing is printed and nothing is retried. *)
Theorem failed_assertion_aborts
    (sess_run : pipe_kind -> Z -> list Np.array) (g : globals) (w : world)
    k dt bounds i l1 l2 a :
  In (k, dt, bounds) pipe_types ->
  events_of (cell_selftest sess_run g) w = l1 ++ SessRun k i :: l2 ->
  first_failure bounds (sess_run k i) = Some a ->
  snd (cell_selftest sess_run g w) = inl (AssertionError a) /\ l2 = [].
Proof.
  intros Hrow Htr Hfail. rewrite events_of_selftest in Htr.
  rewrite cell_selftest_run. cbn [snd].
  destruct (failing_pull_is_last sess_run g k dt bounds i l1 l2 a Hrow Htr Hfail)
    as [-> ->].
  auto.
Qed.

(** ** Status lines *)

Lemma printed_app a b : printed (a ++ b) = printed a ++ printed b.
Proof. apply flat_map_app. Qed.

Lemma printed_build g batch_size row : printed (build_events g batch_size row) = [].
Proof.
  pose proof (build_events_are_build g batch_size row) as H.
  induction (build_events g batch_size row) as [|e l IH]; [reflexivity|].
  simpl. rewrite IH by (intros; apply H; now right).
  specialize (H e (or_introl eq_refl)). now destruct e.
Qed.

Lemma printed_sessruns k iterations : printed (map (SessRun k) iterations) = [].
Proof. induction iterations; simpl; auto. Qed.

Lemma printed_full_block g row : printed (full_block g row) = row_lines row.
Proof.
  unfold full_block. rewrite !printed_app. cbn [printed flat_map].
  fold (printed (build_events g BATCH_SIZE row)).
  rewrite printed_build, printed_sessruns. reflexivity.
Qed.

Lemma printed_cut_block g row done i :
  printed (cut_block g row done i) = [String.append "RUN: " (__name__ (fst (fst row)))].
Proof.
  unfold cut_block. rewrite !printed_app. cbn [printed flat_map].
  fold (printed (build_events g BATCH_SIZE row)).
  rewrite printed_build, printed_sessruns. reflexivity.
Qed.

Lemma printed_blocks g rows :
  printed (concat (map (full_block g) rows)) = flat_map row_lines rows.
Proof.
  induction rows as [|row rest IH]; cbn [map concat flat_map]; [reflexivity|].
  now rewrite printed_app, printed_full_block, IH.
Qed.



(** ** Pipelines built and batches pulled *)

Lemma pulled_app k a b : pulled k (a ++ b) = pulled k a ++ pulled k b.
Proof. apply flat_map_app. Qed.

Lemma pulled_in k i tr : In i (pulled k tr) <-> In (SessRun k i) tr.
Proof.
  unfold pulled. rewrite in_flat_map. split.
  - intros (e & He & Hi). destruct e; try destruct Hi.
    destruct (same_kind k cls) eqn:Hk; [|destruct Hi].
    apply same_kind_true in Hk as <-. destruct Hi as [<-|[]]. exact He.
  - intros H. exists (SessRun k i). split; [exact H|].
    rewrite (proj2 (same_kind_true k k) eq_refl). now left.
Qed.

Lemma pulled_build k g batch_size row : pulled k (build_events g batch_size row) = [].
Proof.
  pose proof (build_events_are_build g batch_size row) as H.
  induction (build_events g batch_size row) as [|e l IH]; [reflexivity|].
  simpl. rewrite IH by (intros; apply H; now right).
  specialize (H e (or_introl eq_refl)). now destruct e.
Qed.

Lemma pulled_sessruns k k' iterations :
  pulled k (map (SessRun k') iterations) = if same_kind k k' then iterations else [].
Proof.
  induction iterations as [|i rest IH]; simpl.
  - now destruct (same_kind k k').
  - fold (pulled k (map (SessRun k') rest)). rewrite IH.
    now destruct (same_kind k k').
Qed.

Lemma pulled_full_block k g row :
  pulled k (full_block g row)
  = if same_kind k (fst (fst row)) then range ITERATIONS else [].
Proof.
  unfold full_block. rewrite !pulled_app. cbn [pulled flat_map run_line ok_line].
  fold (pulled k (build_events g BATCH_SIZE row)).
  rewrite pulled_build, pulled_sessruns, !app_nil_r. reflexivity.
Qed.

Lemma pulled_cut_block k g row done i :
  pulled k (cut_block g row done i)
  = if same_kind k (fst (fst row)) then done ++ [i] else [].
Proof.
  unfold cut_block. rewrite !pulled_app. cbn [pulled flat_map run_line app].
  fold (pulled k (build_events g BATCH_SIZE row)).
  rewrite pulled_build, pulled_sessruns.
  destruct (same_kind k (fst (fst row))); reflexivity.
Qed.

Lemma pipe_types_split before row after :
  pipe_types = before ++ row :: after ->
  (before = [] /\ row = (MXNetReaderPipeline, tf_float32, (0, 999))) \/
  (before = [(MXNetReaderPipeline, tf_float32, (0, 999))] /\
   row = (CaffeReadPipeline, tf_int32, (0, 999))) \/
  (before = [(MXNetReaderPipeline, tf_float32, (0, 999));
             (CaffeReadPipeline, tf_int32, (0, 999))] /\
   row = (FileReadPipeline, tf_int32, (0, 1))) \/
  (before = [(MXNetReaderPipeline, tf_float32, (0, 999));
             (CaffeReadPipeline, tf_int32, (0, 999));
             (FileReadPipeline, tf_int32, (0, 1))] /\
   row = (TFRecordPipeline, tf_int64, (1, 1000))).
Proof.
  unfold pipe_types.
  destruct before as [|b1 [|b2 [|b3 [|b4 [|b5 before]]]]]; simpl; intros H;
    injection H; intros; subst; auto 6; discriminate.
Qed.

Lemma in_full_blocks g rows row e :
  In row rows -> In e (full_block g row) -> In e (concat (map (full_block g) rows)).
Proof.
  intros Hrow He. apply in_concat. exists (full_block g row). split; [|exact He].
  now apply in_map.
Qed.

Lemma full_block_contents g (row : pipe_kind * tf_dtype * (Z * Z)) :
  In (run_line (fst (fst row))) (full_block g row) /\
  In (ok_line (fst (fst row))) (full_block g row) /\
  forall i, In i (range ITERATIONS) -> In (SessRun (fst (fst row)) i) (full_block g row).
Proof.
  unfold full_block. split; [|split].
  - apply in_app_iff. left. now left.
  - apply in_app_iff. right. apply in_app_iff. right. now left.
  - intros i Hi. apply in_app_iff. right. apply in_app_iff. left. now apply in_map.
Qed.

(** A row is reached when the rows before it pass, and completed when it
    passes too. *)
Lemma selftest_progress sess_run g rows before row after :
  rows = before ++ row :: after ->
  (forall r, In r before -> row_ok sess_run r) ->
  let tr := fst (selftest_trace sess_run g rows) in
  In (run_line (fst (fst row))) tr /\
  In (SessRun (fst (fst row)) 0) tr /\
  (row_ok sess_run row ->
   (forall i, In i (range ITERATIONS) -> In (SessRun (fst (fst row)) i) tr) /\
   In (ok_line (fst (fst row))) tr).
Proof.
  intros Hrows Hbefore tr. subst tr.
  assert (In 0 (range ITERATIONS)) as Hzero by (apply range_spec; unfold ITERATIONS; lia).
  destruct (full_block_contents g row) as (Hrun & Hok & Hpulls).
  assert (forall done, In row done ->
            forall tail,
              In (run_line (fst (fst row))) (concat (map (full_block g) done) ++ tail) /\
              In (SessRun (fst (fst row)) 0) (concat (map (full_block g) done) ++ tail) /\
              (row_ok sess_run row ->
               (forall i, In i (range ITERATIONS) ->
                  In (SessRun (fst (fst row)) i)
                     (concat (map (full_block g) done) ++ tail)) /\
               In (ok_line (fst (fst row))) (concat (map (full_block g) done) ++ tail)))
    as Hfull.
  { intros done Hin tail. repeat split; intros; apply in_app_iff; left;
      apply (in_full_blocks g done row); auto. }
  pose proof (selftest_trace_shape sess_run g rows) as Hs.
  destruct (snd (selftest_trace sess_run g rows)) as [a|].
  - destruct Hs as (before0 & row0 & after0 & done & i0 & todo & Hrows0 & Hr & -> & _ & _ & Hi).
    assert (In i0 (range ITERATIONS)) as Hi0 by (rewrite Hr; apply in_elt).
    rewrite Hrows in Hrows0.
    apply app_occurrence in Hrows0 as [(m & E & _)|(m & E1 & E2)].
    + exfalso. assert (row_ok sess_run row0) as Hok0
        by (apply Hbefore; rewrite E; apply in_elt).
      specialize (Hok0 i0 Hi0). unfold batch_ok in Hok0. congruence.
    + destruct m as [|r m]; cbn [app] in E2.
      * injection E2 as <- _. split; [|split].
        -- apply in_app_iff. right. unfold cut_block. apply in_app_iff. left. now left.
        -- apply in_app_iff. right. unfold cut_block. apply in_app_iff. right.
           assert (In 0 (done ++ [i0])) as H0.
           { destruct done as [|d done]; cbn [app] in Hr |- *.
             - injection Hr as <- _. now left.
             - injection Hr as <- _. now left. }
           apply in_app_iff in H0 as [H0|[<-|[]]]; apply in_app_iff;
             [left; now apply in_map|right; now left].
        -- intros Hpass. exfalso. specialize (Hpass i0 Hi0).
           unfold batch_ok in Hpass. congruence.
      * injection E2 as <- _. apply Hfull. rewrite E1. apply in_elt.
  - destruct Hs as [-> _].
    rewrite <- (app_nil_r (concat (map (full_block g) rows))).
    apply Hfull. rewrite Hrows. apply in_elt.
Qed.

(** C6: in the log of the self-test cell, every session run of a pipeline
    class comes after the line "RUN: <class>"; a line "OK : <class>" comes
    only after all ITERATIONS session runs of that class, each with labels
    that pass the assertions; no "OK : <class>" is printed for a class one of
    whose batches fails; and the printed lines are an initial part of RUN/OK
    for MXNetReaderPipeline, CaffeReadPipeline, FileReadPipeline,
    TFRecordPipeline in this order.  The lines are printed: the first line
    is always "RUN: MXNetReaderPipeline"; for a class all of whose
    predecessors in the table pass, "RUN: <class>" is printed and its first
    batch is pulled, and when the class passes as well all its ITERATIONS
    batches are pulled and "OK : <class>" is printed; when the cell finishes,
    the printed lines are all eight. *)
Theorem status_lines_order
    (sess_run : pipe_kind -> Z -> list Np.array) (g : globals) (w : world) :
  let tr := events_of (cell_selftest sess_run g) w in
  (forall l1 l2 k i,
     tr = l1 ++ SessRun k i :: l2 ->
     In (Print (String.append "RUN: " (__name__ k))) l1) /\
  (forall l1 l2 k dt bounds,
     tr = l1 ++ Print (String.append "OK : " (__name__ k)) :: l2 ->
     In (k, dt, bounds) pipe_types ->
     forall i, 0 <= i < ITERATIONS ->
       In (SessRun k i) l1 /\ first_failure bounds (sess_run k i) = None) /\
  (forall k dt bounds i,
     In (k, dt, bounds) pipe_types -> 0 <= i < ITERATIONS ->
     first_failure bounds (sess_run k i) <> None ->
     ~ In (Print (String.append "OK : " (__name__ k))) tr) /\
  (exists rest, status_lines = printed tr ++ rest) /\
  (exists rest, printed tr = "RUN: MXNetReaderPipeline" :: rest) /\
  (forall before k dt bounds after,
     pipe_types = before ++ (k, dt, bounds) :: after ->
     (forall k' dt' bounds' i,
        In (k', dt', bounds') before -> 0 <= i < ITERATIONS ->
        first_failure bounds' (sess_run k' i) = None) ->
     In (Print (String.append "RUN: " (__name__ k))) tr /\
     In (SessRun k 0) tr /\
     ((forall i, 0 <= i < ITERATIONS -> first_failure bounds (sess_run k i) = None) ->
      (forall i, 0 <= i < ITERATIONS -> In (SessRun k i) tr) /\
      In (Print (String.append "OK : " (__name__ k))) tr)) /\
  (snd (cell_selftest sess_run g w) = inr tt -> printed tr = status_lines).
Proof.
  intros tr. subst tr. rewrite events_of_selftest.
  pose proof (selftest_trace_shape sess_run g pipe_types) as Hs.
  assert (run_guarded (fst (selftest_trace sess_run g pipe_types)) /\
          ok_justified sess_run pipe_types (fst (selftest_trace sess_run g pipe_types)) /\
          exists rest, status_lines
                       = printed (fst (selftest_trace sess_run g pipe_types)) ++ rest)
    as (Hrun & Hok & Hlines).
  { destruct (snd (selftest_trace sess_run g pipe_types)) as [a|].
    - destruct Hs as (before & row & after & done & i & todo & Hrows & Hr & -> & Hb & Hd & Hi).
      split; [|split].
      + apply run_guarded_app; [apply run_guarded_blocks|apply run_guarded_cut_block].
      + apply ok_justified_app.
        * apply ok_justified_blocks. intros r Hr'. split; [|now apply Hb].
          rewrite Hrows. apply in_app_iff. now left.
        * apply ok_justified_none. intros k. apply ok_line_in_cut_block.
      + rewrite printed_app, printed_blocks, printed_cut_block.
        exists (String.append "OK : " (__name__ (fst (fst row))) :: flat_map row_lines after).
        change status_lines with (flat_map row_lines pipe_types).
        rewrite Hrows, flat_map_app. cbn [flat_map row_lines].
        now rewrite <- app_assoc.
    - destruct Hs as [-> Hrows]. split; [|split].
      + apply run_guarded_blocks.
      + apply ok_justified_blocks. auto.
      + exists []. rewrite printed_blocks. now rewrite app_nil_r. }
  assert (forall l1 l2 k dt bounds,
            fst (selftest_trace sess_run g pipe_types) = l1 ++ ok_line k :: l2 ->
            In (k, dt, bounds) pipe_types ->
            forall i, 0 <= i < ITERATIONS ->
              In (SessRun k i) l1 /\ first_failure bounds (sess_run k i) = None) as Hok'.
  { intros l1 l2 k dt bounds Htr Hrow i Hi.
    apply Hok in Htr as (row & Hin & Hk & Hrok & Hall).
    apply range_spec in Hi. split; [now apply Hall|].
    assert (row = (k, dt, bounds)) as -> by (apply pipe_types_functional; auto).
    apply (Hrok i Hi). }
  split; [exact Hrun|]. split; [exact Hok'|]. split; [|split; [exact Hlines|]].
  { intros k dt bounds i Hrow Hi Hfail Hin.
    apply in_split in Hin as (l1 & l2 & Htr).
    destruct (Hok' l1 l2 k dt bounds Htr Hrow i Hi) as [_ Hnone]. contradiction. }
  split; [|split].
  - destruct (snd (selftest_trace sess_run g pipe_types)) as [a|].
    + destruct Hs as (before & row & after & done & i & todo & Hrows & _ & -> & _).
      rewrite printed_app, printed_blocks, printed_cut_block.
      apply pipe_types_split in Hrows as [[-> ->]|[[-> ->]|[[-> ->]|[-> ->]]]];
        eexists; reflexivity.
    + destruct Hs as [-> _]. rewrite printed_blocks. eexists. reflexivity.
  - intros before k dt bounds after Hrows Hbefore.
    destruct (selftest_progress sess_run g pipe_types before (k, dt, bounds) after Hrows)
      as (Hline & Hfirst & Hdone).
    { intros [[k' dt'] bounds'] Hin i Hi. apply range_spec in Hi.
      exact (Hbefore k' dt' bounds' i Hin Hi). }
    cbn [fst] in *. split; [exact Hline|]. split; [exact Hfirst|].
    intros Hpass. destruct Hdone as [Hall Hokline].
    { intros i Hi. apply range_spec in Hi. exact (Hpass i Hi). }
    split; [|exact Hokline]. intros i Hi. apply Hall. now apply range_spec.
  - rewrite cell_selftest_run. cbn [snd].
    destruct (snd (selftest_trace sess_run g pipe_types)) as [a|]; [discriminate|].
    intros _. destruct Hs as [-> _]. now rewrite printed_blocks.
Qed.

Lemma pulled_selftest sess_run g k :
  let tr := fst (selftest_trace sess_run g pipe_types) in
  (exists rest, range ITERATIONS = pulled k tr ++ rest) /\
  (snd (selftest_trace sess_run g pipe_types) = None -> pulled k tr = range ITERATIONS).
Proof.
  intros tr. subst tr.
  pose proof (selftest_trace_shape sess_run g pipe_types) as Hs.
  destruct (snd (selftest_trace sess_run g pipe_types)) as [a|].
  - split; [|discriminate].
    destruct Hs as (before & row & after & done & i & todo & Hrows & Hr & -> & _).
    apply pipe_types_split in Hrows as [[-> ->]|[[-> ->]|[[-> ->]|[-> ->]]]];
      cbn [map concat]; rewrite ?pulled_app, ?pulled_full_block, pulled_cut_block;
      destruct k; cbn [same_kind fst app]; rewrite ?app_nil_r;
      first [ exists []; rewrite ?app_nil_r; reflexivity
            | exists todo; rewrite <- ?app_assoc; exact Hr
            | exists (range ITERATIONS); reflexivity ].
  - destruct Hs as [-> _]. unfold pipe_types. cbn [map concat].
    rewrite ?pulled_app, ?pulled_full_block.
    destruct k; cbn [same_kind fst app]; rewrite ?app_nil_r;
      (split; [exists []; now rewrite app_nil_r|reflexivity]).
Qed.


(** ** The index file *)

Lemma resolve_mkdir fuel (tree : gmap string fnode) dir path :
  tree !! dir = None ->
  resolve fuel (<[dir := Dir]> tree) path = resolve fuel tree path \/
  (resolve fuel (<[dir := Dir]> tree) path = Some Dir /\ resolve fuel tree path = None).
Proof.
  intros Hfree. revert path. induction fuel as [|n IH]; intros path.
  - destruct (decide (dir = path)) as [<-|Hne]; cbn [resolve].
    + right. now rewrite lookup_insert_eq, Hfree.
    + left. now rewrite lookup_insert_ne.
  - destruct (decide (dir = path)) as [<-|Hne]; cbn [resolve].
    + right. now rewrite lookup_insert_eq, Hfree.
    + rewrite lookup_insert_ne by exact Hne.
      destruct (tree !! path) as [[| |target]|]; auto.
Qed.

Lemma is_file_mkdir (tree : gmap string fnode) dir path :
  tree !! dir = None -> is_file (<[dir := Dir]> tree) path = is_file tree path.
Proof.
  intros Hfree. unfold is_file.
  destruct (resolve_mkdir MAXSYMLINKS tree dir path Hfree) as [-> |[-> ->]]; reflexivity.
Qed.

Lemma is_file_with_dir mkdir_refused (tree : gmap string fnode) path :
  dir_error mkdir_refused tree = None ->
  is_file (with_dir tree) path = is_file tree path.
Proof.
  unfold dir_error, with_dir.
  destruct (path_exists tree "idx_files"); [reflexivity|].
  destruct (tree !! "idx_files") eqn:Hdir; [discriminate|].
  intros _. now apply is_file_mkdir.
Qed.

Lemma cell_index_run tfrecord2idx mkdir_refused g w :
  cell_index tfrecord2idx mkdir_refused g w
  = let argv := [tfrecord2idx_script; tfrecord g; tfrecord_idx] in
    let made := if path_exists (fs w) "idx_files" then [] else [Mkdir "idx_files"] in
    match dir_error mkdir_refused (fs w) with
    | Some e => (World (fs w) (out w ++ made), inl e)
    | None =>
        if is_file (fs w) tfrecord_idx
        then (World (with_dir (fs w)) (out w ++ made), inr tt)
        else match tfrecord2idx argv (with_dir (fs w)) with
             | inl name =>
                 (World (with_dir (fs w)) (out w ++ made ++ [Call argv]),
                  inl (OSError name))
             | inr tree => (World tree (out w ++ made ++ [Call argv]), inr tt)
             end
    end.
Proof.
  cbn zeta.
  pose proof (is_file_with_dir mkdir_refused (fs w) tfrecord_idx) as Hfile.
  destruct w as [tree tr]. cbn [fs out] in *.
  unfold cell_index, bind, os_path_exists, os_path_isfile, os_mkdir, call, ret.
  cbn [fs out]. unfold dir_error, with_dir in *.
  destruct (path_exists tree "idx_files"); cbn [negb fs out].
  - rewrite app_nil_r.
    destruct (is_file tree tfrecord_idx); cbn [negb fs out]; [reflexivity|].
    destruct (tfrecord2idx _ tree); reflexivity.
  - destruct (tree !! "idx_files") as [node|]; [reflexivity|].
    destruct (mkdir_refused "idx_files") as [name|]; cbn [option_map] in *;
      [reflexivity|].
    cbn [fs out]. rewrite (Hfile eq_refl).
    destruct (is_file tree tfrecord_idx); cbn [negb fs out]; [reflexivity|].
    destruct (tfrecord2idx _ (<["idx_files" := Dir]> tree));
      rewrite <- ?app_assoc; reflexivity.
Qed.

Lemma cell_index_events tfrecord2idx mkdir_refused g w :
  events_of (cell_index tfrecord2idx mkdir_refused g) w
  = (if path_exists (fs w) "idx_files" then [] else [Mkdir "idx_files"]) ++
    (if (dir_ready mkdir_refused (fs w) && negb (is_file (fs w) tfrecord_idx))%bool
     then [Call [tfrecord2idx_script; tfrecord g; tfrecord_idx]]
     else []).
Proof.
  unfold events_of, dir_ready. rewrite cell_index_run. cbn zeta.
  destruct (dir_error mkdir_refused (fs w)); cbn [andb fst out].
  - rewrite skipn_length_app. now rewrite app_nil_r.
  - destruct (is_file (fs w) tfrecord_idx); cbn [negb fst out].
    + rewrite skipn_length_app. now rewrite app_nil_r.
    + destruct (tfrecord2idx _ (with_dir (fs w))); cbn [fst out];
        now rewrite skipn_length_app.
Qed.

Lemma call_in_index_events tfrecord2idx mkdir_refused g w cmd :
  In (Call cmd) (events_of (cell_index tfrecord2idx mkdir_refused g) w) <->
  cmd = [tfrecord2idx_script; tfrecord g; tfrecord_idx] /\
  dir_ready mkdir_refused (fs w) = true /\ is_file (fs w) tfrecord_idx = false.
Proof.
  rewrite cell_index_events, in_app_iff. split.
  - intros [Hin|Hin].
    + destruct (path_exists (fs w) "idx_files"); [destruct Hin|].
      destruct Hin as [E|[]]. discriminate E.
    + destruct (dir_ready mkdir_refused (fs w)), (is_file (fs w) tfrecord_idx);
        cbn [andb negb] in Hin; try (now destruct Hin).
      destruct Hin as [E|[]]. injection E as <-. auto.
  - intros (-> & -> & ->). right. now left.
Qed.

(** C3, as stated, fails: with idx_files a symbolic link that leads
    nowhere the index file is absent, yet [os.mkdir] raises FileExistsError
    and no command is run. *)
Lemma index_not_created_behind_dangling_link :
  is_file (fs dangling_world) tfrecord_idx = false /\
  (forall cmd,
     ~ In (Call cmd)
         (events_of (cell_index write_index no_refusal (mk_globals "/data"))
            dangling_world)) /\
  snd (cell_index write_index no_refusal (mk_globals "/data") dangling_world)
  = inl (FileExistsError "idx_files").
Proof.
  split; [vm_compute; reflexivity|]. split; [|vm_compute; reflexivity].
  intros cmd Hin. apply call_in_index_events in Hin as (_ & Hready & _).
  vm_compute in Hready. discriminate Hready.
Qed.

(** C3, amended: the index cell runs the command
    [tfrecord2idx <tfrecord> idx_files/train.idx] exactly when its directory
    step does not raise (idx_files exists, or nothing has that name and it
    is created) and idx_files/train.idx is not an existing file, and it runs
    no other command; so the command is run only when the index file is
    absent.  When the file exists no command is run, no path other than
    idx_files changes and the file is still there.  When the directory step
    raises, the cell ends in that exception, the files are as before and no
    command is run.  Otherwise the cell returns normally with the files as
    the script leaves them, or with OSError when the script cannot be
    started. *)
Theorem index_created_iff_absent_and_ready
    (tfrecord2idx : list string -> gmap string fnode -> string + gmap string fnode)
    (mkdir_refused : string -> option string) (g : globals) (w : world) :
  let argv := [tfrecord2idx_script; tfrecord g; tfrecord_idx] in
  let tr := events_of (cell_index tfrecord2idx mkdir_refused g) w in
  let result := snd (cell_index tfrecord2idx mkdir_refused g w) in
  let after := fs (fst (cell_index tfrecord2idx mkdir_refused g w)) in
  (In (Call argv) tr <->
   dir_ready mkdir_refused (fs w) = true /\ is_file (fs w) tfrecord_idx = false) /\
  (forall cmd, In (Call cmd) tr -> cmd = argv /\ is_file (fs w) tfrecord_idx = false) /\
  (is_file (fs w) tfrecord_idx = true ->
   (forall cmd, ~ In (Call cmd) tr) /\
   (forall p, p <> "idx_files" -> after !! p = fs w !! p) /\
   is_file after tfrecord_idx = true) /\
  (forall e, dir_error mkdir_refused (fs w) = Some e ->
   result = inl e /\ after = fs w /\ forall cmd, ~ In (Call cmd) tr) /\
  (dir_ready mkdir_refused (fs w) = true ->
   if is_file (fs w) tfrecord_idx then result = inr tt /\ after = with_dir (fs w)
   else match tfrecord2idx argv (with_dir (fs w)) with
        | inr tree => result = inr tt /\ after = tree
        | inl name => result = inl (OSError name) /\ after = with_dir (fs w)
        end).
Proof.
  intros argv tr result after.
  assert (forall cmd, In (Call cmd) tr <->
            cmd = argv /\ dir_ready mkdir_refused (fs w) = true /\
            is_file (fs w) tfrecord_idx = false) as Hcall
    by (intros cmd; apply call_in_index_events).
  subst result after. rewrite cell_index_run. cbn zeta. fold argv.
  split; [|split; [|split; [|split]]].
  - rewrite Hcall. tauto.
  - intros cmd Hin. apply Hcall in Hin. tauto.
  - intros Hfile. rewrite Hfile. split; [|split].
    + intros cmd Hin. apply Hcall in Hin as (_ & _ & Hno). congruence.
    + intros p Hp. destruct (dir_error mkdir_refused (fs w)); cbn [fst fs]; [reflexivity|].
      unfold with_dir. destruct (path_exists (fs w) "idx_files"); [reflexivity|].
      now rewrite lookup_insert_ne by congruence.
    + destruct (dir_error mkdir_refused (fs w)) eqn:Herr; cbn [fst fs]; [exact Hfile|].
      now rewrite (is_file_with_dir mkdir_refused).
  - intros e Herr. rewrite Herr. cbn [fst snd fs]. split; [reflexivity|].
    split; [reflexivity|].
    intros cmd Hin. apply Hcall in Hin as (_ & Hready & _).
    unfold dir_ready in Hready. rewrite Herr in Hready. discriminate Hready.
  - intros Hready. unfold dir_ready in Hready.
    destruct (dir_error mkdir_refused (fs w)); [discriminate Hready|].
    destruct (is_file (fs w) tfrecord_idx); [split; reflexivity|].
    destruct (tfrecord2idx argv (with_dir (fs w))); split; reflexivity.
Qed.

(** ** The data root *)

Lemma append_assoc (a b c : string) :
  String.append (String.append a b) c = String.append a (String.append b c).
Proof.
  induction a as [|x a IH]; [reflexivity|].
  change (String x (String.append (String.append a b) c)
          = String x (String.append a (String.append b c))).
  now rewrite IH.
Qed.

Lemma endswith_sep_append (s : string) (c : ascii) (t : string) :
  endswith_sep (String.append s (String c t)) = endswith_sep (String c t).
Proof.
  induction s as [|x s IH]; [reflexivity|].
  change (endswith_sep (String x (String.append s (String c t)))
          = endswith_sep (String c t)).
  rewrite <- IH. destruct s; reflexivity.
Qed.

Lemma eqb_append_nonempty (s : string) (c : ascii) (t : string) :
  String.eqb (String.append s (String c t)) "" = false.
Proof. destruct s; reflexivity. Qed.

Lemma join_relative (path : string) (c : ascii) (t : string) :
  Ascii.eqb c "/" = false ->
  join_step path (String c t)
  = String.append path (String.append (sep_after path) (String c t)).
Proof.
  intros Hc. unfold join_step, sep_after. cbn [startswith_sep]. rewrite Hc.
  destruct (String.eqb path "" || endswith_sep path)%bool; reflexivity.
Qed.

Lemma sep_after_grown (root : string) (c : ascii) (t : string) :
  endswith_sep (String c t) = false ->
  sep_after (String.append root (String.append (sep_after root) (String c t))) = "/".
Proof.
  intros Hend. unfold sep_after at 1.
  destruct (sep_after root) as [|a s] eqn:Hs.
  - change (String.append "" (String c t)) with (String c t).
    now rewrite eqb_append_nonempty, endswith_sep_append, Hend.
  - change (String.append (String a s) (String c t))
      with (String a (String.append s (String c t))).
    rewrite eqb_append_nonempty, endswith_sep_append.
    unfold sep_after in Hs.
    destruct (String.eqb root "" || endswith_sep root)%bool; [discriminate Hs|].
    injection Hs as <- <-.
    change (String.append "" (String c t)) with (String c t).
    change (endswith_sep (String "/" (String c t))) with (endswith_sep (String c t)).
    now rewrite Hend.
Qed.

Lemma mk_globals_paths (root : string) :
  db_folder (mk_globals root)
    = String.append root (String.append (sep_after root) "db/recordio/") /\
  lmdb_folder (mk_globals root)
    = String.append root (String.append (sep_after root) "db/lmdb") /\
  tfrecord (mk_globals root)
    = String.append root (String.append (sep_after root) "db/tfrecord/train").
Proof.
  unfold mk_globals, os_path_join. cbn [db_folder lmdb_folder tfrecord fold_left].
  rewrite (join_relative root "d" "b") by reflexivity.
  split; [|split].
  - rewrite join_relative by reflexivity.
    rewrite sep_after_grown by reflexivity.
    rewrite !append_assoc. reflexivity.
  - rewrite join_relative by reflexivity.
    rewrite sep_after_grown by reflexivity.
    rewrite !append_assoc. reflexivity.
  - rewrite (join_relative _ "t" "frecord") by reflexivity.
    rewrite sep_after_grown by reflexivity.
    rewrite !append_assoc.
    change (String.append "db" (String.append "/" "tfrecord")) with "db/tfrecord".
    rewrite join_relative by reflexivity.
    rewrite sep_after_grown by reflexivity.
    rewrite !append_assoc. reflexivity.
Qed.

(** C8: without DALI_EXTRA_PATH in the environment, running the notebook
    raises KeyError in the first cell and leaves the world as it was (no
    directory or index file made, no command run, no pipeline constructed);
    the run depends on the environment through DALI_EXTRA_PATH only; and
    db_folder, lmdb_folder and tfrecord are the data root followed by a
    separator (none when the root is empty or ends in one) and the fixed
    paths db/recordio/, db/lmdb and db/tfrecord/train. *)
Theorem missing_data_root_raises
    (tfrecord2idx : list string -> gmap string fnode -> string + gmap string fnode)
    (mkdir_refused : string -> option string)
    (sess_run : pipe_kind -> Z -> list Np.array)
    (environ : gmap string string) (w : world) :
  (environ !! "DALI_EXTRA_PATH" = None ->
   notebook tfrecord2idx mkdir_refused sess_run environ w = (w, inl (KeyError "DALI_EXTRA_PATH"))) /\
  (forall environ' : gmap string string,
     environ' !! "DALI_EXTRA_PATH" = environ !! "DALI_EXTRA_PATH" ->
     notebook tfrecord2idx mkdir_refused sess_run environ' w = notebook tfrecord2idx mkdir_refused sess_run environ w) /\
  (forall root,
     environ !! "DALI_EXTRA_PATH" = Some root ->
     exists g,
       cell_constants environ w = (w, inr g) /\
       test_data_root g = root /\
       db_folder g = String.append root (String.append (sep_after root) "db/recordio/") /\
       lmdb_folder g = String.append root (String.append (sep_after root) "db/lmdb") /\
       tfrecord g = String.append root (String.append (sep_after root) "db/tfrecord/train")).
Proof.
  split; [|split].
  - intros Hnone. unfold notebook, bind, cell_constants. now rewrite Hnone.
  - intros environ' Heq. unfold notebook, bind, cell_constants. now rewrite Heq.
  - intros root Hroot. exists (mk_globals root). unfold cell_constants. rewrite Hroot.
    split; [reflexivity|]. split; [reflexivity|]. apply mk_globals_paths.
Qed.

(** ** The graphs and the readers *)

(** C4: for every pipeline class and every constructor arguments, the graph
    is: the image output of the one call of the reader (its first output,
    the feature image/encoded for the TFRecord reader), through the decoder,
    then Resize, then CropMirrorNormalize, in this order, paired with the
    label output of the same reader call (its second output, the feature
    image/class/label) moved to the GPU and otherwise untouched; the three
    operators are the same for all pipelines. *)
Theorem graph_decode_resize_crop (g : globals) (k : pipe_kind) (b t d n : Z) :
  let self := construct g k b t d n in
  let outs := Apply (input self) [] (reader_call_kwargs k) in
  let images := Item outs (images_output k) in
  let labels := Item outs (labels_output k) in
  define_graph self
  = (Apply (cmn (common self))
       [Apply (resize (common self))
          [Apply (decode (common self)) [images] []]
          [("resize_shorter", Apply (resize_rng (common self)) [] [])]]
       [("crop_pos_x", Apply (uniform (common self)) [] []);
        ("crop_pos_y", Apply (uniform (common self)) [] [])],
     Gpu labels) /\
  images <> labels /\
  op_class (input self) = reader_class k /\
  op_class (decode (common self)) = "ImageDecoder" /\
  op_class (resize (common self)) = "Resize" /\
  op_class (cmn (common self)) = "CropMirrorNormalize" /\
  applied (fst (define_graph self))
  = [reader_class k; "ImageDecoder"; "Resize"; "CropMirrorNormalize"] /\
  applied (snd (define_graph self)) = [reader_class k] /\
  (forall g' k' b' t' d' n',
     decode (common (construct g' k' b' t' d' n')) = decode (common self) /\
     resize (common (construct g' k' b' t' d' n')) = resize (common self) /\
     cmn (common (construct g' k' b' t' d' n')) = cmn (common self)).
Proof.
  cbn zeta.
  assert (forall g' k' b' t' d' n',
            decode (common (construct g' k' b' t' d' n'))
            = decode (common (construct g k b t d n)) /\
            resize (common (construct g' k' b' t' d' n'))
            = resize (common (construct g k b t d n)) /\
            cmn (common (construct g' k' b' t' d' n'))
            = cmn (common (construct g k b t d n))) as Hfixed.
  { intros g' k' b' t' d' n'. destruct k, k'; repeat split. }
  destruct k.
  - split; [reflexivity|]. split; [discriminate|].
    do 6 (split; [reflexivity|]). exact Hfixed.
  - split; [reflexivity|]. split; [discriminate|].
    do 6 (split; [reflexivity|]). exact Hfixed.
  - split; [reflexivity|]. split; [discriminate|].
    do 6 (split; [reflexivity|]). exact Hfixed.
  - split; [reflexivity|]. split; [discriminate|].
    do 6 (split; [reflexivity|]). exact Hfixed.
Qed.

Lemma daliop_in_build g batch_size k dt bounds dev p shapes dtypes d :
  In (DaliOp dev p shapes dtypes d) (build_events g batch_size (k, dt, bounds)) ->
  p = construct g k batch_size 2 d N.
Proof.
  unfold build_events. rewrite in_app_iff, !in_map_iff.
  intros [(x & H & _)|(x & H & _)]; [discriminate H|].
  now injection H as _ <- _ _ <-.
Qed.

(** C9: the reader of a FileReadPipeline is the same whatever batch_size,
    num_threads, device_id and num_gpus it is constructed with: a FileReader
    with the single keyword file_root = image_dir, hence without shard_id,
    num_shards or random_shuffle, while the MXNet and Caffe readers get
    random_shuffle = True, shard_id = device_id and num_shards = num_gpus;
    and any two pipelines that [get_batch_test_dali] hands to [daliop] for
    FileReadPipeline have the same reader. *)
Theorem file_reader_ignores_device (g : globals) (b t d n b' t' d' n' : Z) :
  input (construct g FileReadPipeline b t d n)
    = input (construct g FileReadPipeline b' t' d' n') /\
  input (construct g FileReadPipeline b t d n)
    = Op "FileReader" [("file_root", PStr "../../data/images")] /\
  (forall key, In key ["shard_id"; "num_shards"; "random_shuffle"] ->
     assoc key (op_kwargs (input (construct g FileReadPipeline b t d n))) = None) /\
  (forall k, k = MXNetReaderPipeline \/ k = CaffeReadPipeline ->
     assoc "random_shuffle" (op_kwargs (input (construct g k b t d n))) = Some (PBool true) /\
     assoc "shard_id" (op_kwargs (input (construct g k b t d n))) = Some (PInt d) /\
     assoc "num_shards" (op_kwargs (input (construct g k b t d n))) = Some (PInt n)) /\
  (forall batch_size dt bounds w dev1 p1 sh1 dts1 d1 dev2 p2 sh2 dts2 d2,
     let tr := events_of
                 (get_batch_test_dali g batch_size (FileReadPipeline, dt, bounds)) w in
     In (DaliOp dev1 p1 sh1 dts1 d1) tr -> In (DaliOp dev2 p2 sh2 dts2 d2) tr ->
     input p1 = input p2).
Proof.
  split; [reflexivity|]. split; [reflexivity|]. split; [|split].
  - intros key [<-|[<-|[<-|[]]]]; reflexivity.
  - intros k [->| ->]; repeat split; reflexivity.
  - intros batch_size dt bounds w dev1 p1 sh1 dts1 d1 dev2 p2 sh2 dts2 d2 tr.
    subst tr. unfold events_of. rewrite get_batch_test_dali_run. cbn [fst out].
    rewrite skipn_length_app. intros H1 H2.
    apply daliop_in_build in H1, H2. subst. reflexivity.
Qed.

(** ** The default label of the TFRecord reader *)

Lemma all_map_false {A} (f : A -> bool) (xs : list A) (x : A) :
  In x xs -> f x = false -> Np.all (map f xs) = false.
Proof.
  intros Hin Hx. destruct (Np.all (map f xs)) eqn:Hall; [|reflexivity].
  rewrite (proj1 (all_map_true f xs) Hall x Hin) in Hx. discriminate Hx.
Qed.

Lemma default_label_fails_lower_bound (label : Np.array) :
  (forall x, In x label -> is_int64 x) ->
  In (Np.Fin (inject_Z (-1))) label ->
  check_result (1, 1000) label = Some LabelsLowerBound.
Proof.
  intros Hint Hin. unfold check_result.
  assert (Np.all (map (fun x => Np.equal (Np.mod1 x) 0) label) = true) as ->.
  { apply all_map_true. intros x Hx. apply mod1_zero_iff.
    destruct (Hint x Hx) as (z & -> & _). exists (inject_Z z), z. split; reflexivity. }
  cbn [negb fst].
  now rewrite (all_map_false (fun x => Np.ge x 1) label _ Hin eq_refl).
Qed.

Lemma first_failure_at bounds (good : list Np.array) label rest a :
  (forall l, In l good -> check_result bounds l = None) ->
  check_result bounds label = Some a ->
  first_failure bounds (good ++ label :: rest) = Some a.
Proof.
  intros Hgood Hlabel. induction good as [|l good IH]; simpl.
  - now rewrite Hlabel.
  - rewrite (Hgood l (or_introl eq_refl)). apply IH. intros. apply Hgood. now right.
Qed.

(** C10: the TFRecord reader declares the default [""] for image/encoded
    and -1 for image/class/label; -1 is below the lower bound 1 of the
    TFRecord row of the table; so on an int64 label array that holds the
    default label the integrality assertion passes and the lower-bound
    assertion fails; the self-test cell raises an AssertionError whenever an
    array returned by one of the ITERATIONS session runs of TFRecordPipeline
    holds the default label, and it is the lower-bound one when that session
    run is reached and the arrays before this one in it pass. *)
Theorem tfrecord_default_label_fails
    (sess_run : pipe_kind -> Z -> list Np.array) (g : globals) (w : world)
    (b t d n : Z) :
  let reader := input (construct g TFRecordPipeline b t d n) in
  feature_default reader "image/encoded" = Some (PStr "") /\
  feature_default reader "image/class/label" = Some (PInt (-1)) /\
  (forall dt lo hi,
     In (TFRecordPipeline, dt, (lo, hi)) pipe_types -> lo = 1 /\ hi = 1000 /\ -1 < lo) /\
  (forall label : Np.array,
     (forall x, In x label -> is_int64 x) ->
     In (Np.Fin (inject_Z (-1))) label ->
     check_result (1, 1000) label = Some LabelsLowerBound) /\
  (forall i (label : Np.array),
     0 <= i < ITERATIONS ->
     In label (sess_run TFRecordPipeline i) ->
     In (Np.Fin (inject_Z (-1))) label ->
     exists a, snd (cell_selftest sess_run g w) = inl (AssertionError a)) /\
  (forall i good (label : Np.array) rest,
     sess_run TFRecordPipeline i = good ++ label :: rest ->
     (forall l, In l good -> check_result (1, 1000) l = None) ->
     (forall x, In x label -> is_int64 x) ->
     In (Np.Fin (inject_Z (-1))) label ->
     In (SessRun TFRecordPipeline i) (events_of (cell_selftest sess_run g) w) ->
     snd (cell_selftest sess_run g w) = inl (AssertionError LabelsLowerBound)).
Proof.
  cbn zeta. split; [reflexivity|]. split; [reflexivity|]. split; [|split; [|split]].
  - intros dt lo hi Hin. unfold pipe_types in Hin. simpl in Hin.
    destruct Hin as [H|[H|[H|[H|[]]]]]; try discriminate H.
    injection H as _ <- <-. lia.
  - exact default_label_fails_lower_bound.
  - intros i label Hi Hin Hdefault.
    destruct (snd (cell_selftest sess_run g w)) as [e|[]] eqn:Hrun.
    + rewrite cell_selftest_run in Hrun. cbn [snd] in Hrun.
      destruct (snd (selftest_trace sess_run g pipe_types)) as [a|]; [|discriminate Hrun].
      injection Hrun as <-. now exists a.
    + exfalso.
      pose proof (proj1 (selftest_passes_iff sess_run g w)
                    Hrun TFRecordPipeline tf_int64 (1, 1000)) as Hvalid.
      destruct (Hvalid ltac:(unfold pipe_types; simpl; tauto) i Hi label Hin _ Hdefault)
        as (q & z & [= <-] & Hz & Hlo & _).
      apply (proj1 (inject_Z_injective (-1) z)) in Hz. cbn [fst] in Hlo. lia.
  - intros i good label rest Hrun Hgood Hint Hdefault Hreached.
    apply in_split in Hreached as (l1 & l2 & Htr).
    rewrite events_of_selftest in Htr. rewrite cell_selftest_run. cbn [snd].
    assert (first_failure (1, 1000) (sess_run TFRecordPipeline i) = Some LabelsLowerBound)
      as Hfail.
    { rewrite Hrun. apply first_failure_at; [exact Hgood|].
      now apply default_label_fails_lower_bound. }
    now destruct (failing_pull_is_last sess_run g TFRecordPipeline tf_int64 (1, 1000)
                    i l1 l2 LabelsLowerBound ltac:(unfold pipe_types; simpl; tauto) Htr Hfail)
      as [-> _].
Qed.

(** ** The class declarations *)

(** C2, as stated, fails: MXNetReaderPipeline is declared with the base
    CommonPipeline, a class of the notebook, not with the imported base
    class. *)
Lemma reader_not_direct_subclass_of_pipeline :
  ~ direct_subclass_of (Reader MXNetReaderPipeline) Pipeline.
Proof. intros (decl & [= <-] & H). discriminate H. Qed.

(** C2, amended: each of the four reader pipeline classes is declared with
    the single base CommonPipeline, itself declared with the single base
    Pipeline, and defines exactly the two methods __init__ and define_graph;
    its __init__ initialises the inherited part as CommonPipeline does and
    constructs one operator, the reader of the class, with the keywords of
    the class; its define_graph is a call of the shared helper
    base_define_graph of CommonPipeline.  CommonPipeline itself defines
    __init__, which constructs the five shared operators and no reader, and
    the helper base_define_graph. *)
Theorem reader_classes_shape (g : globals) (k : pipe_kind) (b t d n : Z) :
  direct_subclass_of (Reader k) CommonPipeline /\
  direct_subclass_of CommonPipeline Pipeline /\
  declared Pipeline = None /\
  (exists decl, declared (Reader k) = Some decl /\
                defined decl = ["__init__"; "define_graph"]) /\
  (exists decl, declared CommonPipeline = Some decl /\
                defined decl = ["__init__"; "base_define_graph"]) /\
  let self := construct g k b t d n in
  map op_class (own_operators CommonPipeline self)
    = ["ImageDecoder"; "Resize"; "CropMirrorNormalize"; "Uniform"; "Uniform"] /\
  kind self = k /\
  common self = CommonPipeline__init__ b t d /\
  own_operators (Reader k) self = [input self] /\
  op_class (input self) = reader_class k /\
  keys (op_kwargs (input self)) = reader_keywords k /\
  exists images labels,
    define_graph self = base_define_graph (common self) images labels.
Proof.
  split; [eexists; split; reflexivity|].
  split; [eexists; split; reflexivity|].
  split; [reflexivity|].
  split; [eexists; split; reflexivity|].
  split; [eexists; split; reflexivity|].
  destruct k; cbn zeta; repeat split; eexists; eexists; reflexivity.
Qed.

(** ** The statements at concrete runs *)

(** C5 at a run whose first batch holds the label 1/2. *)
Lemma failed_assertion_aborts_witness :
  In (MXNetReaderPipeline, tf_float32, (0, 999)) pipe_types /\
  first_failure (0, 999) (halves_run MXNetReaderPipeline 0) = Some LabelsIntegral /\
  snd (cell_selftest halves_run (mk_globals "/data") empty_world)
    = inl (AssertionError LabelsIntegral).
Proof.
  assert (In (MXNetReaderPipeline, tf_float32, (0, 999)) pipe_types) as Hrow
    by (left; reflexivity).
  split; [exact Hrow|]. split; [reflexivity|].
  refine (proj1 (failed_assertion_aborts halves_run (mk_globals "/data") empty_world
                   MXNetReaderPipeline tf_float32 (0, 999) 0
                   (run_line MXNetReaderPipeline
                    :: build_events (mk_globals "/data") BATCH_SIZE
                         (MXNetReaderPipeline, tf_float32, (0, 999)))
                   [] LabelsIntegral Hrow _ _)).
  - vm_compute. reflexivity.
  - reflexivity.
Defined.

(** C1 at a run whose labels are all 1: the cell finishes, so 2/2 is a valid
    label of the MXNet row. *)
Lemma selftest_checks_label_validity_witness :
  snd (cell_selftest ones_run (mk_globals "/data") empty_world) = inr tt /\
  valid_label (0, 999) (Np.Fin (2 # 2)).
Proof.
  assert (snd (cell_selftest ones_run (mk_globals "/data") empty_world) = inr tt) as Hrun
    by (vm_compute; reflexivity).
  split; [exact Hrun|].
  apply (proj1 (proj2 (proj2 (selftest_checks_label_validity
                                ones_run (mk_globals "/data") empty_world)))
           Hrun MXNetReaderPipeline tf_float32 (0, 999) (or_introl eq_refl)
           5 ltac:(unfold ITERATIONS; lia)
           [Np.Fin 1; Np.Fin (2 # 2)] (or_introl eq_refl)).
  right. left. reflexivity.
Defined.

(** C3, amended, at a world without files, where the script is run, and at
    a world that has the index file, where it is not. *)
Lemma index_created_iff_absent_and_ready_witness :
  (dir_ready no_refusal (fs empty_world) = true /\
   is_file (fs empty_world) tfrecord_idx = false) /\
  In (Call [tfrecord2idx_script; tfrecord (mk_globals "/data"); tfrecord_idx])
     (events_of (cell_index write_index no_refusal (mk_globals "/data")) empty_world) /\
  is_file (fs indexed_world) tfrecord_idx = true /\
  forall cmd,
    ~ In (Call cmd)
        (events_of (cell_index write_index no_refusal (mk_globals "/data")) indexed_world).
Proof.
  assert (dir_ready no_refusal (fs empty_world) = true /\
          is_file (fs empty_world) tfrecord_idx = false) as Habsent
    by (split; vm_compute; reflexivity).
  assert (is_file (fs indexed_world) tfrecord_idx = true) as Hfile
    by (vm_compute; reflexivity).
  split; [exact Habsent|]. split; [|split; [exact Hfile|]].
  - exact (proj2 (proj1 (index_created_iff_absent_and_ready
                           write_index no_refusal (mk_globals "/data") empty_world))
             Habsent).
  - exact (proj1 (proj1 (proj2 (proj2 (index_created_iff_absent_and_ready
                                         write_index no_refusal (mk_globals "/data")
                                         indexed_world))) Hfile)).
Defined.

(** C6 at a run whose fourth TFRecord batch holds the default label: the
    OK line of FileReadPipeline is printed, that of TFRecordPipeline is
    not. *)
Lemma status_lines_order_witness :
  pipe_types
  = [(MXNetReaderPipeline, tf_float32, (0, 999)); (CaffeReadPipeline, tf_int32, (0, 999))]
    ++ (FileReadPipeline, tf_int32, (0, 1)) :: [(TFRecordPipeline, tf_int64, (1, 1000))] /\
  (forall i, 0 <= i < ITERATIONS ->
     first_failure (0, 1) (default_label_run FileReadPipeline i) = None) /\
  In (Print "OK : FileReadPipeline")
     (events_of (cell_selftest default_label_run (mk_globals "/data")) empty_world) /\
  first_failure (1, 1000) (default_label_run TFRecordPipeline 3) <> None /\
  ~ In (Print "OK : TFRecordPipeline")
      (events_of (cell_selftest default_label_run (mk_globals "/data")) empty_world).
Proof.
  assert (In (TFRecordPipeline, tf_int64, (1, 1000)) pipe_types) as Hrow
    by (right; right; right; left; reflexivity).
  assert (first_failure (1, 1000) (default_label_run TFRecordPipeline 3) <> None) as Hfail
    by (vm_compute; discriminate).
  assert (forall i, 0 <= i < ITERATIONS ->
            first_failure (0, 1) (default_label_run FileReadPipeline i) = None) as Hfiles
    by (intros i _; reflexivity).
  split; [reflexivity|]. split; [exact Hfiles|]. split; [|split; [exact Hfail|]].
  - refine (proj2 (proj2 (proj2
              (proj1 (proj2 (proj2 (proj2 (proj2 (proj2
                 (status_lines_order default_label_run (mk_globals "/data") empty_world))))))
                 [(MXNetReaderPipeline, tf_float32, (0, 999));
                  (CaffeReadPipeline, tf_int32, (0, 999))]
                 FileReadPipeline tf_int32 (0, 1)
                 [(TFRecordPipeline, tf_int64, (1, 1000))] eq_refl _))
              Hfiles)).
    intros k' dt' bounds' i [E|[E|[]]] _; injection E as <- <- <-; reflexivity.
  - exact (proj1 (proj2 (proj2 (status_lines_order
                                  default_label_run (mk_globals "/data") empty_world)))
             TFRecordPipeline tf_int64 (1, 1000) 3 Hrow
             ltac:(unfold ITERATIONS; lia) Hfail).
Defined.


(** C8 at the empty environment. *)
Lemma missing_data_root_raises_witness :
  (∅ : gmap string string) !! "DALI_EXTRA_PATH" = None /\
  notebook write_index no_refusal ones_run ∅ empty_world
  = (empty_world, inl (KeyError "DALI_EXTRA_PATH")).
Proof.
  split; [reflexivity|].
  exact (proj1 (missing_data_root_raises write_index no_refusal ones_run ∅ empty_world) eq_refl).
Defined.

(** C9 at the pipeline of device 3. *)
Lemma file_reader_ignores_device_witness :
  In "shard_id" ["shard_id"; "num_shards"; "random_shuffle"] /\
  assoc "shard_id"
    (op_kwargs (input (construct (mk_globals "/data") FileReadPipeline 128 2 3 8)))
  = None.
Proof.
  split; [left; reflexivity|].
  exact (proj1 (proj2 (proj2 (file_reader_ignores_device
                                (mk_globals "/data") 128 2 3 8 128 2 5 8)))
           "shard_id" (or_introl eq_refl)).
Defined.

(** C10 at the run whose fourth TFRecord batch holds the default label. *)
Lemma tfrecord_default_label_fails_witness :
  default_label_run TFRecordPipeline 3
    = [[Np.Fin 1]] ++ [Np.Fin 7; Np.Fin (inject_Z (-1))] :: [] /\
  (forall x, In x [Np.Fin 7; Np.Fin (inject_Z (-1))] -> is_int64 x) /\
  In (SessRun TFRecordPipeline 3)
     (events_of (cell_selftest default_label_run (mk_globals "/data")) empty_world) /\
  snd (cell_selftest default_label_run (mk_globals "/data") empty_world)
  = inl (AssertionError LabelsLowerBound).
Proof.
  assert (forall x, In x [Np.Fin 7; Np.Fin (inject_Z (-1))] -> is_int64 x) as Hint.
  { intros x [<-|[<-|[]]]; [exists 7|exists (-1)]; (split; [reflexivity|lia]). }
  assert (In (SessRun TFRecordPipeline 3)
            (events_of (cell_selftest default_label_run (mk_globals "/data")) empty_world))
    as Hreached by (apply pulled_in; vm_compute; auto 10).
  split; [reflexivity|]. split; [exact Hint|]. split; [exact Hreached|].
  refine (proj2 (proj2 (proj2 (proj2 (proj2
            (tfrecord_default_label_fails
               default_label_run (mk_globals "/data") empty_world 128 2 3 8)))))
            3 [[Np.Fin 1]] [Np.Fin 7; Np.Fin (inject_Z (-1))] [] eq_refl _ Hint _ Hreached).
  - intros l [<-|[]]. reflexivity.
  - right. left. reflexivity.
Defined.

(** ** Further properties: the index cell *)



Lemma path_exists_with_dir mkdir_refused (tree : gmap string fnode) :
  dir_error mkdir_refused tree = None -> path_exists (with_dir tree) "idx_files" = true.
Proof.
  unfold dir_error, with_dir.
  destruct (path_exists tree "idx_files") eqn:Hdir; [now rewrite Hdir|].
  intros _. unfold path_exists, MAXSYMLINKS. cbn [resolve].
  now rewrite lookup_insert_eq.
Qed.

Lemma resolve_write fuel (tree : gmap string fnode) key content path :
  resolve fuel tree path <> None ->
  resolve fuel (<[key := File content]> tree) path <> None.
Proof.
  revert path. induction fuel as [|n IH]; intros path; cbn [resolve];
    (destruct (decide (key = path)) as [<-|Hne];
     [now rewrite lookup_insert_eq|rewrite lookup_insert_ne by exact Hne]).
  - destruct (tree !! path) as [[| |target]|]; auto.
  - destruct (tree !! path) as [[| |target]|]; auto.
Qed.


(** X2: when a run of the index cell has returned normally and the script,
    whenever it runs, writes the index file and leaves idx_files in
    existence, running the index cell again does nothing: [os.mkdir] is not
    called, no command is run and the files are as the first run left
    them. *)
Theorem index_cell_runs_once
    (tfrecord2idx : list string -> gmap string fnode -> string + gmap string fnode)
    (mkdir_refused : string -> option string) (g : globals) (w : world) :
  snd (cell_index tfrecord2idx mkdir_refused g w) = inr tt ->
  (forall tree tree',
     tfrecord2idx [tfrecord2idx_script; tfrecord g; tfrecord_idx] tree = inr tree' ->
     is_file tree' tfrecord_idx = true) ->
  (forall tree tree',
     tfrecord2idx [tfrecord2idx_script; tfrecord g; tfrecord_idx] tree = inr tree' ->
     path_exists tree "idx_files" = true -> path_exists tree' "idx_files" = true) ->
  let w1 := fst (cell_index tfrecord2idx mkdir_refused g w) in
  cell_index tfrecord2idx mkdir_refused g w1 = (w1, inr tt) /\
  events_of (cell_index tfrecord2idx mkdir_refused g) w1 = [].
Proof.
  intros Hresult Hwrites Hkeeps w1.
  assert (is_file (fs w1) tfrecord_idx = true /\ path_exists (fs w1) "idx_files" = true)
    as [Hfile Hdir].
  { subst w1. rewrite cell_index_run in Hresult |- *. cbn zeta in *.
    destruct (dir_error mkdir_refused (fs w)) eqn:Herr; [discriminate Hresult|].
    pose proof (path_exists_with_dir mkdir_refused (fs w) Herr) as Hmade.
    destruct (is_file (fs w) tfrecord_idx) eqn:Hbefore.
    - cbn [fst fs]. split; [|exact Hmade].
      now rewrite (is_file_with_dir mkdir_refused).
    - destruct (tfrecord2idx _ (with_dir (fs w))) as [name|tree'] eqn:Hscript;
        [discriminate Hresult|].
      cbn [fst fs]. split; [exact (Hwrites _ _ Hscript)|exact (Hkeeps _ _ Hscript Hmade)]. }
  assert (dir_error mkdir_refused (fs w1) = None) as Herr1
    by (unfold dir_error; now rewrite Hdir).
  split.
  - rewrite cell_index_run. cbn zeta. rewrite Herr1, Hfile, Hdir.
    unfold with_dir. rewrite Hdir, app_nil_r. now destruct w1.
  - rewrite cell_index_events, Hfile, Hdir. now destruct (dir_ready mkdir_refused (fs w1)).
Qed.

(** X2 at the script that writes the index file, from a world without
    files. *)
Lemma index_cell_runs_once_witness :
  snd (cell_index write_index no_refusal (mk_globals "/data") empty_world) = inr tt /\
  (forall tree tree',
     write_index [tfrecord2idx_script; tfrecord (mk_globals "/data"); tfrecord_idx] tree
     = inr tree' ->
     is_file tree' tfrecord_idx = true) /\
  events_of (cell_index write_index no_refusal (mk_globals "/data"))
    (fst (cell_index write_index no_refusal (mk_globals "/data") empty_world)) = [].
Proof.
  assert (snd (cell_index write_index no_refusal (mk_globals "/data") empty_world) = inr tt)
    as Hresult by (vm_compute; reflexivity).
  assert (forall tree tree',
            write_index [tfrecord2idx_script; tfrecord (mk_globals "/data"); tfrecord_idx]
              tree = inr tree' ->
            is_file tree' tfrecord_idx = true) as Hwrites.
  { intros tree tree' [= <-]. unfold is_file, MAXSYMLINKS. cbn [resolve].
    now rewrite lookup_insert_eq. }
  split; [exact Hresult|]. split; [exact Hwrites|].
  refine (proj2 (index_cell_runs_once write_index no_refusal (mk_globals "/data")
                   empty_world Hresult Hwrites _)).
  intros tree tree' [= <-] Hdir. unfold path_exists in *.
  pose proof (resolve_write MAXSYMLINKS tree tfrecord_idx "index" "idx_files") as Hkept.
  destruct (resolve MAXSYMLINKS tree "idx_files"); [|discriminate Hdir].
  destruct (resolve MAXSYMLINKS (<[tfrecord_idx := File "index"]> tree) "idx_files");
    [reflexivity|]. now destruct Hkept.
Defined.

(** X3: the command the index cell runs names the data file and the index
    file that the TFRecord reader of every TFRecordPipeline is constructed
    with, and the index file is the one whose presence the cell tests. *)
Theorem index_cell_feeds_tfrecord_reader
    (tfrecord2idx : list string -> gmap string fnode -> string + gmap string fnode)
    (mkdir_refused : string -> option string)
    (g : globals) (w : world) (argv : list string) (b t d n : Z) :
  In (Call argv) (events_of (cell_index tfrecord2idx mkdir_refused g) w) ->
  exists data index,
    argv = [tfrecord2idx_script; data; index] /\
    reader_arg (construct g TFRecordPipeline b t d n) "path" = Some (PStr data) /\
    reader_arg (construct g TFRecordPipeline b t d n) "index_path" = Some (PStr index) /\
    is_file (fs w) index = false.
Proof.
  intros Hin. apply call_in_index_events in Hin as (-> & _ & Hfile).
  exists (tfrecord g), tfrecord_idx. repeat split; [reflexivity..|exact Hfile].
Qed.

(** X3 at a world without files. *)
Lemma index_cell_feeds_tfrecord_reader_witness :
  In (Call ["tfrecord2idx"; "/data/db/tfrecord/train"; "idx_files/train.idx"])
     (events_of (cell_index write_index no_refusal (mk_globals "/data")) empty_world) /\
  reader_arg (construct (mk_globals "/data") TFRecordPipeline 128 2 0 8) "path"
  = Some (PStr "/data/db/tfrecord/train").
Proof.
  assert (In (Call ["tfrecord2idx"; "/data/db/tfrecord/train"; "idx_files/train.idx"])
            (events_of (cell_index write_index no_refusal (mk_globals "/data"))
               empty_world)) as Hin
    by (vm_compute; auto).
  split; [exact Hin|].
  destruct (index_cell_feeds_tfrecord_reader write_index no_refusal (mk_globals "/data")
              empty_world _ 128 2 0 8 Hin) as (data & index & Hargv & Hpath & _).
  injection Hargv as <- _. exact Hpath.
Defined.

(** ** Further properties: readers and graphs *)

(** X4: whatever the data root, db_folder ends in a separator, so the
    string concatenations of the MXNet reader name the files train.rec and
    train.idx inside db/recordio under the root; lmdb_folder, given whole to
    the Caffe reader, does not end in one. *)
Theorem mxnet_reader_files (root : string) (b t d n : Z) :
  let g := mk_globals root in
  endswith_sep (db_folder g) = true /\
  reader_arg (construct g MXNetReaderPipeline b t d n) "path"
  = Some (PList [PStr (String.append root
                         (String.append (sep_after root) "db/recordio/train.rec"))]) /\
  reader_arg (construct g MXNetReaderPipeline b t d n) "index_path"
  = Some (PList [PStr (String.append root
                         (String.append (sep_after root) "db/recordio/train.idx"))]) /\
  endswith_sep (lmdb_folder g) = false /\
  reader_arg (construct g CaffeReadPipeline b t d n) "path"
  = Some (PStr (String.append root (String.append (sep_after root) "db/lmdb"))).
Proof.
  cbn zeta. destruct (mk_globals_paths root) as (Hdb & Hlmdb & _).
  assert (forall c t', String.append (sep_after root) (String c t') = String c t' \/
                       String.append (sep_after root) (String c t')
                       = String "/" (String c t')) as Hsep.
  { intros c t'. unfold sep_after.
    destruct (String.eqb root "" || endswith_sep root)%bool; auto. }
  split; [|split; [|split; [|split]]].
  - rewrite Hdb.
    destruct (Hsep "d"%char "b/recordio/") as [-> | ->];
      now rewrite endswith_sep_append.
  - change (reader_arg (construct (mk_globals root) MXNetReaderPipeline b t d n) "path")
      with (Some (PList [PStr (String.append (db_folder (mk_globals root)) "train.rec")])).
    rewrite Hdb, !append_assoc. reflexivity.
  - change (reader_arg (construct (mk_globals root) MXNetReaderPipeline b t d n)
              "index_path")
      with (Some (PList [PStr (String.append (db_folder (mk_globals root)) "train.idx")])).
    rewrite Hdb, !append_assoc. reflexivity.
  - rewrite Hlmdb.
    destruct (Hsep "d"%char "b/lmdb") as [-> | ->];
      now rewrite endswith_sep_append.
  - change (reader_arg (construct (mk_globals root) CaffeReadPipeline b t d n) "path")
      with (Some (PStr (lmdb_folder (mk_globals root)))).
    now rewrite Hlmdb.
Qed.

Lemma daliop_in_build_iff g batch_size k dt bounds dev p shapes dtypes d :
  In (DaliOp dev p shapes dtypes d) (build_events g batch_size (k, dt, bounds)) <->
  In d (range N) /\
  dev = String.append "/gpu:" (format_int d) /\
  p = construct g k batch_size 2 d N /\
  shapes = [[BATCH_SIZE; 3; 227; 227]; []] /\
  dtypes = [tf_int32; dt].
Proof.
  unfold build_events. rewrite in_app_iff, !in_map_iff. split.
  - intros [(x & H & _)|(x & H & Hx)]; [discriminate H|].
    injection H as <- <- <- <- <-. auto.
  - intros (Hd & -> & -> & -> & ->). right. exists d. auto.
Qed.

Lemma events_of_get_batch g batch_size row w :
  events_of (get_batch_test_dali g batch_size row) w = build_events g batch_size row.
Proof.
  unfold events_of. rewrite get_batch_test_dali_run. cbn [fst out].
  apply skipn_length_app.
Qed.

(** X5: for the MXNet and Caffe pipelines, the pipeline that
    [get_batch_test_dali] hands to the [daliop] of device [d] reads shard
    [d] of N shards; every shard 0..N-1 is read by the pipeline of some
    device, and two devices never read the same shard. *)
Theorem shards_cover_devices
    (g : globals) (batch_size : Z) (k : pipe_kind) (dt : tf_dtype) (bounds : Z * Z)
    (w : world) :
  k = MXNetReaderPipeline \/ k = CaffeReadPipeline ->
  let tr := events_of (get_batch_test_dali g batch_size (k, dt, bounds)) w in
  (forall dev p sh dts d,
     In (DaliOp dev p sh dts d) tr ->
     reader_arg p "shard_id" = Some (PInt d) /\
     reader_arg p "num_shards" = Some (PInt N) /\
     0 <= d < N) /\
  (forall s, 0 <= s < N ->
     exists dev p sh dts d,
       In (DaliOp dev p sh dts d) tr /\ reader_arg p "shard_id" = Some (PInt s)) /\
  (forall dev1 p1 sh1 dts1 d1 dev2 p2 sh2 dts2 d2,
     In (DaliOp dev1 p1 sh1 dts1 d1) tr -> In (DaliOp dev2 p2 sh2 dts2 d2) tr ->
     reader_arg p1 "shard_id" = reader_arg p2 "shard_id" -> d1 = d2).
Proof.
  intros Hk tr. subst tr. rewrite events_of_get_batch.
  assert (forall d, reader_arg (construct g k batch_size 2 d N) "shard_id" = Some (PInt d) /\
                    reader_arg (construct g k batch_size 2 d N) "num_shards"
                    = Some (PInt N)) as Hshard
    by (intros d; destruct Hk as [-> | ->]; split; reflexivity).
  split; [|split].
  - intros dev p sh dts d Hin.
    apply daliop_in_build_iff in Hin as (Hd & _ & -> & _).
    apply range_spec in Hd. destruct (Hshard d). auto.
  - intros s Hs.
    exists (String.append "/gpu:" (format_int s)), (construct g k batch_size 2 s N),
      [[BATCH_SIZE; 3; 227; 227]; []], [tf_int32; dt], s.
    split; [|apply Hshard].
    apply daliop_in_build_iff. repeat split. now apply range_spec.
  - intros dev1 p1 sh1 dts1 d1 dev2 p2 sh2 dts2 d2 H1 H2 Heq.
    apply daliop_in_build_iff in H1 as (_ & _ & -> & _).
    apply daliop_in_build_iff in H2 as (_ & _ & -> & _).
    rewrite (proj1 (Hshard d1)), (proj1 (Hshard d2)) in Heq. now injection Heq.
Qed.

(** X5 for the MXNet pipelines of the self-test. *)
Lemma shards_cover_devices_witness :
  (MXNetReaderPipeline = MXNetReaderPipeline \/ MXNetReaderPipeline = CaffeReadPipeline) /\
  0 <= 5 < N /\
  exists dev p sh dts d,
    In (DaliOp dev p sh dts d)
       (events_of (get_batch_test_dali (mk_globals "/data") BATCH_SIZE
                     (MXNetReaderPipeline, tf_float32, (0, 999))) empty_world) /\
    reader_arg p "shard_id" = Some (PInt 5).
Proof.
  split; [left; reflexivity|].
  assert (0 <= 5 < N) as H5 by (unfold N; lia).
  split; [exact H5|].
  exact (proj1 (proj2 (shards_cover_devices (mk_globals "/data") BATCH_SIZE
                         MXNetReaderPipeline tf_float32 (0, 999) empty_world
                         (or_introl eq_refl))) 5 H5).
Defined.

(** X6: the graph a pipeline defines never depends on its batch size or
    thread count; for FileReadPipeline and TFRecordPipeline it does not
    depend on the device or the number of GPUs either, so all devices run
    the same graph over the same unsharded reader; for MXNetReaderPipeline
    and CaffeReadPipeline two graphs are equal only for the same device and
    number of GPUs. *)
Theorem graph_dependence (g : globals) (k : pipe_kind) (b t d n b' t' d' n' : Z) :
  define_graph (construct g k b t d n) = define_graph (construct g k b' t' d n) /\
  (k = FileReadPipeline \/ k = TFRecordPipeline ->
   define_graph (construct g k b t d n) = define_graph (construct g k b' t' d' n') /\
   forall key, In key ["shard_id"; "num_shards"; "random_shuffle"] ->
     reader_arg (construct g k b t d n) key = None) /\
  (k = MXNetReaderPipeline \/ k = CaffeReadPipeline ->
   define_graph (construct g k b t d n) = define_graph (construct g k b' t' d' n') ->
   d = d' /\ n = n').
Proof.
  split; [now destruct k|]. split.
  - intros [-> | ->]; (split; [reflexivity|]);
      intros key [<-|[<-|[<-|[]]]]; reflexivity.
  - intros [-> | ->] H; cbv in H; injection H; auto.
Qed.

(** X6 for two TFRecord pipelines of different devices. *)
Lemma graph_dependence_witness :
  (TFRecordPipeline = FileReadPipeline \/ TFRecordPipeline = TFRecordPipeline) /\
  define_graph (construct (mk_globals "/data") TFRecordPipeline 128 2 0 8)
  = define_graph (construct (mk_globals "/data") TFRecordPipeline 64 4 7 8).
Proof.
  split; [right; reflexivity|].
  exact (proj1 (proj1 (proj2 (graph_dependence (mk_globals "/data") TFRecordPipeline
                                128 2 0 8 64 4 7 8)) (or_intror eq_refl))).
Defined.

(** X7: each pipeline [get_batch_test_dali] hands to [daliop] is of the
    requested class, has the requested batch size, two threads and the
    device of the call, which is run under /gpu:<device>; the image shape
    declared to [daliop] is always (BATCH_SIZE, 3, 227, 227), with the crop
    size of the pipeline, so its batch dimension is the batch size of the
    pipeline exactly when the function is called with BATCH_SIZE; images are
    declared int32 and labels with the dtype of the table row. *)
Theorem daliop_arguments
    (g : globals) (bs : Z) (k : pipe_kind) (dt : tf_dtype) (bounds : Z * Z) (w : world)
    dev p sh dts d :
  In (DaliOp dev p sh dts d) (events_of (get_batch_test_dali g bs (k, dt, bounds)) w) ->
  0 <= d < N /\
  dev = String.append "/gpu:" (format_int d) /\
  kind p = k /\
  batch_size (base (common p)) = bs /\
  num_threads (base (common p)) = 2 /\
  device_id (base (common p)) = d /\
  sh = [[BATCH_SIZE; 3; 227; 227]; []] /\
  assoc "crop" (op_kwargs (cmn (common p))) = Some (PTuple [PInt 227; PInt 227]) /\
  dts = [tf_int32; dt] /\
  (nth_error sh 0 = Some [batch_size (base (common p)); 3; 227; 227] <-> bs = BATCH_SIZE).
Proof.
  rewrite events_of_get_batch. intros Hin.
  apply daliop_in_build_iff in Hin as (Hd & -> & -> & -> & ->).
  apply range_spec in Hd.
  assert (batch_size (base (common (construct g k bs 2 d N))) = bs) as Hbs
    by now destruct k.
  repeat split; try (now destruct k); try lia.
  - rewrite Hbs. cbn [nth_error]. intros H. now injection H.
  - rewrite Hbs. intros ->. reflexivity.
Qed.

(** X7 at the Caffe pipeline of device 2 in the self-test. *)
Lemma daliop_arguments_witness :
  In (DaliOp "/gpu:2" (construct (mk_globals "/data") CaffeReadPipeline BATCH_SIZE 2 2 N)
        [[BATCH_SIZE; 3; 227; 227]; []] [tf_int32; tf_int32] 2)
     (events_of (get_batch_test_dali (mk_globals "/data") BATCH_SIZE
                   (CaffeReadPipeline, tf_int32, (0, 999))) empty_world) /\
  0 <= 2 < N.
Proof.
  assert (In (DaliOp "/gpu:2"
                (construct (mk_globals "/data") CaffeReadPipeline BATCH_SIZE 2 2 N)
                [[BATCH_SIZE; 3; 227; 227]; []] [tf_int32; tf_int32] 2)
            (events_of (get_batch_test_dali (mk_globals "/data") BATCH_SIZE
                          (CaffeReadPipeline, tf_int32, (0, 999))) empty_world)) as Hin.
  { rewrite events_of_get_batch. apply daliop_in_build_iff.
    repeat split. apply range_spec. unfold N. lia. }
  split; [exact Hin|].
  exact (proj1 (daliop_arguments (mk_globals "/data") BATCH_SIZE CaffeReadPipeline tf_int32
                  (0, 999) empty_world _ _ _ _ _ Hin)).
Defined.

(** ** Further properties: the self-test loop and the whole notebook *)

Lemma session_trace_events sess_run k bounds iterations e :
  In e (fst (session_trace sess_run k bounds iterations)) ->
  exists i, In i iterations /\ e = SessRun k i.
Proof.
  induction iterations as [|i rest IH]; cbn [session_trace]; [intros []|].
  destruct (first_failure bounds (sess_run k i)).
  - intros [<-|[]]. exists i. split; [now left|reflexivity].
  - destruct (session_trace sess_run k bounds rest) as [t r]. cbn [fst] in *.
    intros [<-|Hin].
    + exists i. split; [now left|reflexivity].
    + destruct (IH Hin) as (j & Hj & ->). exists j. split; [now right|reflexivity].
Qed.

Lemma selftest_trace_events sess_run g rows e :
  In e (fst (selftest_trace sess_run g rows)) -> ~ touches_files e.
Proof.
  induction rows as [|row rest IH]; cbn [selftest_trace]; [intros []|].
  pose proof (session_trace_events sess_run (fst (fst row)) (snd row) (range ITERATIONS) e)
    as Hs.
  destruct (session_trace sess_run (fst (fst row)) (snd row) (range ITERATIONS))
    as [t [a|]]; cbn [fst] in *.
  - intros [<-|Hin]; [now intros []|].
    apply in_app_iff in Hin as [Hin|Hin].
    + apply build_events_are_build in Hin. now destruct e.
    + destruct (Hs Hin) as (i & _ & ->). now intros [].
  - destruct (selftest_trace sess_run g rest) as [t' r]. cbn [fst] in *.
    intros [<-|Hin]; [now intros []|].
    apply in_app_iff in Hin as [Hin|Hin].
    + apply build_events_are_build in Hin. now destruct e.
    + apply in_app_iff in Hin as [Hin|[<-|Hin]].
      * destruct (Hs Hin) as (i & _ & ->). now intros [].
      * now intros [].
      * now apply IH.
Qed.

(** X8: the self-test cell leaves the files as they are and neither makes a
    directory nor runs a command, whatever the session returns and whether
    or not an assertion fails. *)
Theorem selftest_leaves_files
    (sess_run : pipe_kind -> Z -> list Np.array) (g : globals) (w : world) :
  fs (fst (cell_selftest sess_run g w)) = fs w /\
  forall e, In e (events_of (cell_selftest sess_run g) w) -> ~ touches_files e.
Proof.
  split.
  - now rewrite cell_selftest_run.
  - rewrite events_of_selftest. intros e. apply selftest_trace_events.
Qed.

(** X9: how a run of the whole notebook can end.  KeyError for
    DALI_EXTRA_PATH exactly when the variable is unset.  With the variable
    set: FileExistsError for idx_files when that name is taken by a link that
    leads nowhere; an OSError when the system refuses to create idx_files,
    or when the directory step has passed, the index file is absent and the
    script cannot be started; an AssertionError for an assertion that fails
    on the labels of one of the ITERATIONS session runs of a row of the
    table; or normally, with no assertion failing on any of these session
    runs.  It never ends in IndexError, the list of pipelines having one
    entry per device. *)
Theorem notebook_outcomes
    (tfrecord2idx : list string -> gmap string fnode -> string + gmap string fnode)
    (mkdir_refused : string -> option string)
    (sess_run : pipe_kind -> Z -> list Np.array)
    (environ : gmap string string) (w : world) :
  match snd (notebook tfrecord2idx mkdir_refused sess_run environ w) with
  | inr _ =>
      (exists root, environ !! "DALI_EXTRA_PATH" = Some root) /\
      dir_ready mkdir_refused (fs w) = true /\
      forall k dt bounds i,
        In (k, dt, bounds) pipe_types -> 0 <= i < ITERATIONS ->
        first_failure bounds (sess_run k i) = None
  | inl (KeyError key) => key = "DALI_EXTRA_PATH" /\ environ !! "DALI_EXTRA_PATH" = None
  | inl (FileExistsError path) =>
      path = "idx_files" /\
      (exists root, environ !! "DALI_EXTRA_PATH" = Some root) /\
      path_exists (fs w) "idx_files" = false /\ fs w !! "idx_files" <> None
  | inl (OSError name) =>
      exists root,
        environ !! "DALI_EXTRA_PATH" = Some root /\
        ((fs w !! "idx_files" = None /\ mkdir_refused "idx_files" = Some name) \/
         (dir_ready mkdir_refused (fs w) = true /\
          is_file (fs w) tfrecord_idx = false /\
          tfrecord2idx [tfrecord2idx_script; tfrecord (mk_globals root); tfrecord_idx]
            (with_dir (fs w)) = inl name))
  | inl (AssertionError a) =>
      exists root k dt bounds i,
        environ !! "DALI_EXTRA_PATH" = Some root /\
        dir_ready mkdir_refused (fs w) = true /\
        In (k, dt, bounds) pipe_types /\ 0 <= i < ITERATIONS /\
        first_failure bounds (sess_run k i) = Some a
  | inl IndexError => False
  end.
Proof.
  unfold notebook, bind, cell_constants.
  destruct (environ !! "DALI_EXTRA_PATH") as [root|] eqn:Henv; cbn [raise ret snd].
  2:{ split; reflexivity. }
  rewrite cell_index_run. cbn zeta.
  assert (forall w1,
            match snd (cell_selftest sess_run (mk_globals root) w1) with
            | inr _ =>
                forall k dt bounds i,
                  In (k, dt, bounds) pipe_types -> 0 <= i < ITERATIONS ->
                  first_failure bounds (sess_run k i) = None
            | inl (AssertionError a) =>
                exists k dt bounds i,
                  In (k, dt, bounds) pipe_types /\ 0 <= i < ITERATIONS /\
                  first_failure bounds (sess_run k i) = Some a
            | inl _ => False
            end) as Hself.
  { intros w1. rewrite cell_selftest_run. cbn [snd].
    pose proof (selftest_trace_shape sess_run (mk_globals root) pipe_types) as Hs.
    destruct (snd (selftest_trace sess_run (mk_globals root) pipe_types)) as [a|];
      cbn [outcome].
    2:{ destruct Hs as [_ Hok].
        intros k dt bounds i Hrow Hi. apply range_spec in Hi.
        exact (Hok _ Hrow i Hi). }
    destruct Hs as (before & row & after & done & i & todo & Hrows & Hr & _ & _ & _ & Hi).
    destruct row as [[k dt] bounds]. cbn [fst snd] in Hi.
    assert (0 <= i < ITERATIONS) as Hrange
      by (apply range_spec; rewrite Hr; apply in_elt).
    exists k, dt, bounds, i. split; [rewrite Hrows; apply in_elt|]. auto. }
  assert (forall w1,
            dir_ready mkdir_refused (fs w) = true ->
            match snd (cell_selftest sess_run (mk_globals root) w1) with
            | inr _ =>
                (exists r, Some root = Some r) /\
                dir_ready mkdir_refused (fs w) = true /\
                forall k dt bounds i,
                  In (k, dt, bounds) pipe_types -> 0 <= i < ITERATIONS ->
                  first_failure bounds (sess_run k i) = None
            | inl (KeyError key) => key = "DALI_EXTRA_PATH" /\ Some root = None
            | inl (FileExistsError path) =>
                path = "idx_files" /\ (exists r, Some root = Some r) /\
                path_exists (fs w) "idx_files" = false /\ fs w !! "idx_files" <> None
            | inl (OSError name) =>
                exists r,
                  Some root = Some r /\
                  ((fs w !! "idx_files" = None /\ mkdir_refused "idx_files" = Some name) \/
                   (dir_ready mkdir_refused (fs w) = true /\
                    is_file (fs w) tfrecord_idx = false /\
                    tfrecord2idx [tfrecord2idx_script; tfrecord (mk_globals r); tfrecord_idx]
                      (with_dir (fs w)) = inl name))
            | inl (AssertionError a) =>
                exists r k dt bounds i,
                  Some root = Some r /\
                  dir_ready mkdir_refused (fs w) = true /\
                  In (k, dt, bounds) pipe_types /\ 0 <= i < ITERATIONS /\
                  first_failure bounds (sess_run k i) = Some a
            | inl IndexError => False
            end) as Hrest.
  { intros w1 Hready. specialize (Hself w1).
    destruct (snd (cell_selftest sess_run (mk_globals root) w1)) as [[| | | |a]|];
      try contradiction.
    - destruct Hself as (k & dt & bounds & i & Hrow & Hi & Hfail).
      exists root, k, dt, bounds, i. auto.
    - split; [now exists root|]. auto. }
  unfold dir_ready in *.
  destruct (dir_error mkdir_refused (fs w)) as [e|] eqn:Herr; cbn [snd].
  - unfold dir_error in Herr.
    destruct (path_exists (fs w) "idx_files") eqn:Hexists; [discriminate Herr|].
    destruct (fs w !! "idx_files") as [node|] eqn:Hnode.
    + injection Herr as <-. split; [reflexivity|]. split; [now exists root|].
      split; [reflexivity|discriminate].
    + destruct (mkdir_refused "idx_files") as [name|] eqn:Hrefused;
        [|discriminate Herr].
      injection Herr as <-. exists root. split; [reflexivity|]. left. auto.
  - destruct (is_file (fs w) tfrecord_idx) eqn:Hfile; [now apply Hrest|].
    destruct (tfrecord2idx _ (with_dir (fs w))) as [name|tree] eqn:Hscript;
      [|now apply Hrest].
    cbn [snd]. exists root. split; [reflexivity|]. right. auto.
Qed.

Lemma length_row_lines rows : length (flat_map row_lines rows) = (2 * length rows)%nat.
Proof. induction rows as [|row rest IH]; simpl; [reflexivity|]. rewrite IH. lia. Qed.

(** X10: the self-test cell finishes without an exception exactly when it
    has printed all eight status lines; when it ends in an AssertionError the
    lines printed are the RUN and OK lines of the rows before the failing
    row followed by the RUN line of the failing row, which is the last line
    printed. *)
Theorem all_lines_iff_pass
    (sess_run : pipe_kind -> Z -> list Np.array) (g : globals) (w : world) :
  let tr := events_of (cell_selftest sess_run g) w in
  (snd (cell_selftest sess_run g w) = inr tt <-> printed tr = status_lines) /\
  (forall a,
     snd (cell_selftest sess_run g w) = inl (AssertionError a) ->
     exists before row after i,
       pipe_types = before ++ row :: after /\
       0 <= i < ITERATIONS /\
       first_failure (snd row) (sess_run (fst (fst row)) i) = Some a /\
       printed tr
       = flat_map row_lines before ++ [String.append "RUN: " (__name__ (fst (fst row)))]).
Proof.
  intros tr. subst tr. rewrite events_of_selftest, cell_selftest_run. cbn [snd].
  pose proof (selftest_trace_shape sess_run g pipe_types) as Hs.
  destruct (snd (selftest_trace sess_run g pipe_types)) as [a0|]; cbn [outcome].
  - destruct Hs as (before & row & after & done & i & todo & Hrows & Hr & -> & _ & _ & Hi).
    assert (printed (concat (map (full_block g) before) ++ cut_block g row done i)
            = flat_map row_lines before
              ++ [String.append "RUN: " (__name__ (fst (fst row)))]) as Hprinted
      by now rewrite printed_app, printed_blocks, printed_cut_block.
    split.
    + split; [discriminate|]. rewrite Hprinted. intros H. exfalso.
      apply (f_equal (@length string)) in H.
      rewrite length_app, length_row_lines in H. simpl in H. lia.
    + intros a [= <-]. exists before, row, after, i.
      split; [exact Hrows|]. split; [|split; [exact Hi|exact Hprinted]].
      apply range_spec. rewrite Hr. apply in_elt.
  - destruct Hs as [-> _]. split; [|discriminate].
    split; [intros _|reflexivity]. now rewrite printed_blocks.
Qed.

(** ** Further properties: the assertions *)

Lemma all_map_false_iff {A} (f : A -> bool) (xs : list A) :
  Np.all (map f xs) = false <-> exists x, In x xs /\ f x = false.
Proof.
  split.
  - induction xs as [|x rest IH]; simpl; [discriminate|].
    destruct (f x) eqn:Hx; simpl.
    + intros H. destruct (IH H) as (y & Hy & Hfy). exists y. auto.
    + intros _. exists x. auto.
  - intros (x & Hin & Hx). exact (all_map_false f xs x Hin Hx).
Qed.

Lemma not_integer_iff (x : Np.scalar) :
  Np.equal (Np.mod1 x) 0 = false <-> ~ is_integer x.
Proof.
  unfold is_integer. rewrite <- mod1_zero_iff.
  destruct (Np.equal (Np.mod1 x) 0); split; congruence.
Qed.

(** X11: which assertion one array of labels raises.  It is the
    integrality assertion exactly when some label is not an integer, so
    always when some label is NaN or infinite, whatever the range; the
    lower-bound assertion exactly when all labels are integers and some
    label is not at least the lower bound; the upper-bound assertion exactly
    when all labels are integers at least the lower bound and some label is
    not at most the upper bound. *)
Theorem raised_assertion (bounds : Z * Z) (label : Np.array) :
  (check_result bounds label = Some LabelsIntegral <->
   exists x, In x label /\ ~ is_integer x) /\
  (check_result bounds label = Some LabelsLowerBound <->
   (forall x, In x label -> is_integer x) /\
   exists x, In x label /\ Np.ge x (fst bounds) = false) /\
  (check_result bounds label = Some LabelsUpperBound <->
   (forall x, In x label -> is_integer x /\ Np.ge x (fst bounds) = true) /\
   exists x, In x label /\ Np.le x (snd bounds) = false) /\
  (forall x, In x label -> x = Np.NaN \/ x = Np.PosInf \/ x = Np.NegInf ->
   check_result bounds label = Some LabelsIntegral).
Proof.
  assert (check_result bounds label = Some LabelsIntegral <->
          exists x, In x label /\ ~ is_integer x) as Hintegral.
  { unfold check_result.
    destruct (Np.all (map (fun x => Np.equal (Np.mod1 x) 0) label)) eqn:Hint; cbn [negb].
    - split.
      + destruct (Np.all (map (fun x => Np.ge x (fst bounds)) label)); cbn [negb];
          [|discriminate].
        destruct (Np.all (map (fun x => Np.le x (snd bounds)) label)); discriminate.
      + intros (x & Hin & Hx). exfalso. apply Hx. apply mod1_zero_iff.
        exact (proj1 (all_map_true _ _) Hint x Hin).
    - split; [intros _|reflexivity].
      apply all_map_false_iff in Hint as (x & Hin & Hx).
      exists x. split; [exact Hin|]. now apply not_integer_iff. }
  split; [exact Hintegral|]. split; [|split].
  - unfold check_result.
    destruct (Np.all (map (fun x => Np.equal (Np.mod1 x) 0) label)) eqn:Hint; cbn [negb].
    + destruct (Np.all (map (fun x => Np.ge x (fst bounds)) label)) eqn:Hlo; cbn [negb].
      * split.
        -- destruct (Np.all (map (fun x => Np.le x (snd bounds)) label)); discriminate.
        -- intros (_ & x & Hin & Hx). exfalso.
           rewrite (proj1 (all_map_true _ _) Hlo x Hin) in Hx. discriminate Hx.
      * split; [intros _|reflexivity]. split.
        -- intros x Hin. apply mod1_zero_iff.
           exact (proj1 (all_map_true _ _) Hint x Hin).
        -- now apply all_map_false_iff in Hlo.
    + split; [discriminate|]. intros (Hall & _). exfalso.
      apply all_map_false_iff in Hint as (x & Hin & Hx).
      apply not_integer_iff in Hx. exact (Hx (Hall x Hin)).
  - unfold check_result.
    destruct (Np.all (map (fun x => Np.equal (Np.mod1 x) 0) label)) eqn:Hint; cbn [negb].
    + destruct (Np.all (map (fun x => Np.ge x (fst bounds)) label)) eqn:Hlo; cbn [negb].
      * destruct (Np.all (map (fun x => Np.le x (snd bounds)) label)) eqn:Hhi; cbn [negb].
        -- split; [discriminate|]. intros (_ & x & Hin & Hx). exfalso.
           rewrite (proj1 (all_map_true _ _) Hhi x Hin) in Hx. discriminate Hx.
        -- split; [intros _|reflexivity]. split.
           ++ intros x Hin. split.
              ** apply mod1_zero_iff. exact (proj1 (all_map_true _ _) Hint x Hin).
              ** exact (proj1 (all_map_true _ _) Hlo x Hin).
           ++ now apply all_map_false_iff in Hhi.
      * split; [discriminate|]. intros (Hall & _). exfalso.
        apply all_map_false_iff in Hlo as (x & Hin & Hx).
        rewrite (proj2 (Hall x Hin)) in Hx. discriminate Hx.
    + split; [discriminate|]. intros (Hall & _). exfalso.
      apply all_map_false_iff in Hint as (x & Hin & Hx).
      apply not_integer_iff in Hx. exact (Hx (proj1 (Hall x Hin))).
  - intros x Hin Hx. apply Hintegral. exists x. split; [exact Hin|].
    intros (q & z & Hq & _). destruct Hx as [->|[->| ->]]; discriminate Hq.
Qed.

(** X11 at an MXNet batch that holds a NaN next to a label out of range. *)
Lemma raised_assertion_witness :
  In Np.NaN [Np.Fin 5000; Np.NaN] /\
  check_result (0, 999) [Np.Fin 5000; Np.NaN] = Some LabelsIntegral.
Proof.
  assert (In Np.NaN [Np.Fin 5000; Np.NaN]) as Hin by (right; left; reflexivity).
  split; [exact Hin|].
  exact (proj2 (proj2 (proj2 (raised_assertion (0, 999) [Np.Fin 5000; Np.NaN])))
           Np.NaN Hin (or_introl eq_refl)).
Defined.

(** X12: the self-test does not check how many arrays a session run
    returns nor how many labels an array holds: when every returned array is
    empty, no assertion fails, the cell finishes, all ITERATIONS batches of
    every class are pulled and all eight status lines are printed. *)
Theorem labelless_batches_pass
    (sess_run : pipe_kind -> Z -> list Np.array) (g : globals) (w : world) :
  (forall k i label, In label (sess_run k i) -> label = []) ->
  snd (cell_selftest sess_run g w) = inr tt /\
  printed (events_of (cell_selftest sess_run g) w) = status_lines /\
  forall k, pulled k (events_of (cell_selftest sess_run g) w) = range ITERATIONS.
Proof.
  intros Hempty.
  assert (forall bounds k i, first_failure bounds (sess_run k i) = None) as Hpass.
  { intros bounds k i. apply first_failure_none. intros label Hin x Hx.
    rewrite (Hempty k i label Hin) in Hx. destruct Hx. }
  rewrite events_of_selftest, cell_selftest_run. cbn [snd].
  pose proof (selftest_trace_shape sess_run g pipe_types) as Hs.
  destruct (snd (selftest_trace sess_run g pipe_types)) as [a|] eqn:Hsnd.
  - exfalso. destruct Hs as (_ & row & _ & _ & i & _ & _ & _ & _ & _ & _ & Hi).
    rewrite Hpass in Hi. discriminate Hi.
  - destruct Hs as [Hfst _]. split; [reflexivity|]. split.
    + rewrite Hfst. now rewrite printed_blocks.
    + intros k. destruct (pulled_selftest sess_run g k) as [_ Hk]. now apply Hk.
Qed.

(** X12 at a session that returns two empty arrays each time. *)
Lemma labelless_batches_pass_witness :
  (forall k i label, In label (no_labels_run k i) -> label = []) /\
  snd (cell_selftest no_labels_run (mk_globals "/data") empty_world) = inr tt.
Proof.
  assert (forall k i label, In label (no_labels_run k i) -> label = []) as Hempty
    by (intros k i label [<-|[<-|[]]]; reflexivity).
  split; [exact Hempty|].
  exact (proj1 (labelless_batches_pass no_labels_run (mk_globals "/data") empty_world
                  Hempty)).
Defined.

Lemma build_guarded_app g rows a b :
  build_guarded g rows a -> build_guarded g rows b -> build_guarded g rows (a ++ b).
Proof.
  intros Ha Hb l1 l2 k i H.
  apply app_occurrence in H as [(m & E & _)|(m & -> & E)].
  - now apply Ha in E.
  - apply Hb in E as (row & Hrow & Hk & Hbuilt). exists row. repeat split; auto.
    intros e He. apply in_app_iff. right. auto.
Qed.

Lemma build_guarded_headed g rows row tail :
  In row rows ->
  (forall k i, In (SessRun k i) tail -> k = fst (fst row)) ->
  build_guarded g rows ((run_line (fst (fst row)) :: build_events g BATCH_SIZE row) ++ tail).
Proof.
  intros Hrow Htail l1 l2 k i H.
  apply app_occurrence in H as [(m & E & _)|(m & -> & E)].
  - exfalso.
    assert (In (SessRun k i) (run_line (fst (fst row)) :: build_events g BATCH_SIZE row))
      as [Hin|Hin] by (rewrite E; apply in_elt).
    + discriminate Hin.
    + apply build_events_are_build in Hin. destruct Hin.
  - exists row. split; [exact Hrow|]. split.
    + symmetry. apply (Htail k i). rewrite E. apply in_elt.
    + intros e He. apply in_app_iff. left. now right.
Qed.

Lemma build_guarded_blocks g rows (done : list (pipe_kind * tf_dtype * (Z * Z))) :
  (forall r, In r done -> In r rows) ->
  build_guarded g rows (concat (map (full_block g) done)).
Proof.
  induction done as [|row rest IH]; cbn [map concat]; intros Hin.
  - intros [|? ?] ? ? ? H; discriminate H.
  - apply build_guarded_app.
    + unfold full_block. apply build_guarded_headed; [apply Hin; now left|].
      intros k i [H|[H|[]]]%in_app_iff; [|discriminate H].
      apply in_map_iff in H as (j & H & _). now injection H.
    + apply IH. intros r Hr. apply Hin. now right.
Qed.

(** X13: in the log of the self-test cell a session run of a class comes
    only after [get_batch_test_dali] has constructed the pipelines of all N
    devices for that class, with batch size BATCH_SIZE, and has handed each
    of them to the [daliop] of its device. *)
Theorem pipelines_built_before_pulls
    (sess_run : pipe_kind -> Z -> list Np.array) (g : globals) (w : world)
    l1 l2 k dt bounds i :
  events_of (cell_selftest sess_run g) w = l1 ++ SessRun k i :: l2 ->
  In (k, dt, bounds) pipe_types ->
  forall d, 0 <= d < N ->
    In (New k BATCH_SIZE 2 d N) l1 /\
    In (DaliOp (String.append "/gpu:" (format_int d)) (construct g k BATCH_SIZE 2 d N)
          [[BATCH_SIZE; 3; 227; 227]; []] [tf_int32; dt] d) l1.
Proof.
  rewrite events_of_selftest. intros Htr Hrow d Hd.
  assert (build_guarded g pipe_types (fst (selftest_trace sess_run g pipe_types))) as Hg.
  { pose proof (selftest_trace_shape sess_run g pipe_types) as Hs.
    destruct (snd (selftest_trace sess_run g pipe_types)) as [a|].
    - destruct Hs as (before & row & after & done & j & todo & Hrows & _ & -> & _).
      apply build_guarded_app.
      + apply build_guarded_blocks. intros r Hr. rewrite Hrows. apply in_app_iff. now left.
      + unfold cut_block. apply build_guarded_headed.
        * rewrite Hrows. apply in_elt.
        * intros k' i' [H|[H|[]]]%in_app_iff; [|now injection H].
          apply in_map_iff in H as (j' & H & _). now injection H.
    - destruct Hs as [-> _]. apply build_guarded_blocks. auto. }
  destruct (Hg l1 l2 k i Htr) as (row & Hin & Hk & Hbuilt).
  assert (row = (k, dt, bounds)) as -> by (apply pipe_types_functional; auto).
  apply range_spec in Hd. split; apply Hbuilt.
  - unfold build_events. apply in_app_iff. left.
    apply in_map_iff. exists d. auto.
  - apply daliop_in_build_iff. auto.
Qed.

(** X13 at the first session run of a run whose first batch holds 1/2. *)
Lemma pipelines_built_before_pulls_witness :
  In (MXNetReaderPipeline, tf_float32, (0, 999)) pipe_types /\
  0 <= 7 < N /\
  In (New MXNetReaderPipeline BATCH_SIZE 2 7 N)
     (run_line MXNetReaderPipeline
      :: build_events (mk_globals "/data") BATCH_SIZE
           (MXNetReaderPipeline, tf_float32, (0, 999))).
Proof.
  assert (In (MXNetReaderPipeline, tf_float32, (0, 999)) pipe_types) as Hrow
    by (left; reflexivity).
  assert (0 <= 7 < N) as H7 by (unfold N; lia).
  split; [exact Hrow|]. split; [exact H7|].
  refine (proj1 (pipelines_built_before_pulls halves_run (mk_globals "/data") empty_world
                   (run_line MXNetReaderPipeline
                    :: build_events (mk_globals "/data") BATCH_SIZE
                         (MXNetReaderPipeline, tf_float32, (0, 999)))
                   [] MXNetReaderPipeline tf_float32 (0, 999) 0 _ Hrow 7 H7)).
  vm_compute. reflexivity.
Defined.

(** ** The further properties at concrete runs *)


(** X9 at a run with the variable set where idx_files is a link to
    nothing. *)
Lemma notebook_outcomes_witness :
  snd (notebook write_index no_refusal ones_run
         (<["DALI_EXTRA_PATH" := "/data"]> ∅) dangling_world)
  = inl (FileExistsError "idx_files") /\
  path_exists (fs dangling_world) "idx_files" = false.
Proof.
  assert (snd (notebook write_index no_refusal ones_run
                 (<["DALI_EXTRA_PATH" := "/data"]> ∅) dangling_world)
          = inl (FileExistsError "idx_files")) as Hresult
    by (vm_compute; reflexivity).
  split; [exact Hresult|].
  pose proof (notebook_outcomes write_index no_refusal ones_run
                (<["DALI_EXTRA_PATH" := "/data"]> ∅) dangling_world) as Hout.
  rewrite Hresult in Hout. exact (proj1 (proj2 (proj2 Hout))).
Defined.

(** X8 at a run that fails in its first batch: the session run logged is
    not an event on files. *)
Lemma selftest_leaves_files_witness :
  In (SessRun MXNetReaderPipeline 0)
     (events_of (cell_selftest halves_run (mk_globals "/data")) empty_world) /\
  ~ touches_files (SessRun MXNetReaderPipeline 0).
Proof.
  assert (In (SessRun MXNetReaderPipeline 0)
            (events_of (cell_selftest halves_run (mk_globals "/data")) empty_world)) as Hin
    by (apply pulled_in; vm_compute; auto).
  split; [exact Hin|].
  exact (proj2 (selftest_leaves_files halves_run (mk_globals "/data") empty_world) _ Hin).
Defined.

(** X10 at a run whose labels are all 1. *)
Lemma all_lines_iff_pass_witness :
  snd (cell_selftest ones_run (mk_globals "/data") empty_world) = inr tt /\
  printed (events_of (cell_selftest ones_run (mk_globals "/data")) empty_world)
  = status_lines.
Proof.
  assert (snd (cell_selftest ones_run (mk_globals "/data") empty_world) = inr tt) as Hrun
    by (vm_compute; reflexivity).
  split; [exact Hrun|].
  exact (proj1 (proj1 (all_lines_iff_pass ones_run (mk_globals "/data") empty_world)) Hrun).
Defined.
